(** * ciftify_vol_result: settings resolution and command sequencing

    A shallow embedding of [ciftify/bin/ciftify_vol_result.py]: the
    [UserSettings] class that resolves and validates every path, and
    [run_ciftify_vol_result], which issues the [wb_command] calls.

    The process is modelled with explicit state passing: a computation
    receives the list of external commands issued so far and yields
    either a value or a process exit code, together with the extended
    list.  The file system, the configuration look-ups of
    [ciftify.config], the NIfTI header reader and the outcome of each
    external tool are fields of a [World] record. *)

From Stdlib Require Import String Ascii List Bool ZArith Lia.
Import ListNotations.
Local Open Scope list_scope.
Local Open Scope string_scope.

Set Implicit Arguments.

(** ** Python string and [os.path] primitives *)

Module Py.

(** [str.endswith]: some tail of [s] is [suf]. *)
Fixpoint endswith (s suf : string) : bool :=
  if String.eqb s suf then true
  else match s with
       | EmptyString => false
       | String _ s' => endswith s' suf
       end.

(** [str.startswith]. *)
Definition startswith (s pre : string) : bool := String.prefix pre s.

(** Truth value of a [str]: the empty string is false. *)
Definition truthy (s : string) : bool := negb (String.eqb s "").

(** Truth value of a docopt option that is [None] or a [str]. *)
Definition truthy_opt (o : option string) : bool :=
  match o with
  | None => false
  | Some s => truthy s
  end.

(** One step of the loop of [posixpath.join]. *)
Definition join_step (path b : string) : string :=
  if startswith b "/" then b
  else if negb (truthy path) || endswith path "/" then path ++ b
  else path ++ "/" ++ b.

(** [os.path.join(a, *p)]. *)
Definition os_path_join (a : string) (p : list string) : string :=
  fold_left join_step p a.

(** Characters of a string, and back. *)
Fixpoint chars (s : string) : list ascii :=
  match s with
  | EmptyString => []
  | String c s' => c :: chars s'
  end.

Fixpoint of_chars (l : list ascii) : string :=
  match l with
  | [] => EmptyString
  | c :: l' => String c (of_chars l')
  end.

Definition is_slash (c : ascii) : bool := Ascii.eqb c "/"%char.

(** Drops the leading characters satisfying [f]. *)
Fixpoint dropwhile (f : ascii -> bool) (l : list ascii) : list ascii :=
  match l with
  | [] => []
  | c :: l' => if f c then dropwhile f l' else l
  end.

(** [posixpath.dirname]: the head is everything up to and including the
    last slash; unless it consists of slashes only, its trailing slashes
    are stripped. *)
Definition os_path_dirname (p : string) : string :=
  let rhead := dropwhile (fun c => negb (is_slash c)) (rev (chars p)) in
  if forallb is_slash rhead then of_chars (rev rhead)
  else of_chars (rev (dropwhile is_slash rhead)).

End Py.

Import Py.

(** ** Outcomes and the process monad *)

(** A computation either yields a value or ends the process through
    [sys.exit(code)]. *)
Inductive result (A : Type) : Type :=
| Ok (a : A)
| Exit (code : Z).

Arguments Ok {A} a.
Arguments Exit {A} code.

(** An external command is an argument vector. *)
Definition Cmd : Type := list string.

(** The commands issued so far are threaded through every step. *)
Definition M (A : Type) : Type := list Cmd -> result A * list Cmd.

Definition ret {A} (a : A) : M A := fun t => (Ok a, t).

Definition bind {A B} (m : M A) (k : A -> M B) : M B :=
  fun t =>
    match m t with
    | (Ok a, t') => k a t'
    | (Exit c, t') => (Exit c, t')
    end.

(** [sys.exit(code)]. *)
Definition sys_exit {A} (code : Z) : M A := fun t => (Exit code, t).

(** [if cond: sys.exit(1)] followed by the rest of the body. *)
Definition exit_when (cond : bool) : M unit :=
  if cond then sys_exit 1 else ret tt.

Declare Scope proc_scope.
Delimit Scope proc_scope with proc.
Notation "x <- m ;; k" := (bind m (fun x => k))
  (at level 61, m at next level, right associativity) : proc_scope.
Notation "m ;;; k" := (bind m (fun _ => k))
  (at level 61, right associativity) : proc_scope.
Local Open Scope proc_scope.

(** ** Command-line arguments (the dictionary built by docopt) *)

Record CliArgs : Type := {
  arg_subject : string;                    (* <subject> *)
  arg_vol : string;                        (* <vol.nii.gz> *)
  arg_output : string;                     (* <output.dscalar.nii> *)
  arg_ciftify_work_dir : option string;    (* --ciftify-work-dir *)
  arg_integer_labels : bool;               (* --integer-labels *)
  arg_surface_vol : option string;         (* --surface-vol *)
  arg_subcortical_vol : option string;     (* --subcortical-vol *)
  arg_dilate : option string;              (* --dilate *)
  arg_HCP_Pipelines : bool;                (* --HCP-Pipelines *)
  arg_HCP_MSMAll : bool;                   (* --HCP-MSMAll *)
  arg_resample_nifti : bool;               (* --resample-nifti *)
  arg_hcp_data_dir : option string;        (* --hcp-data-dir *)
  arg_debug : bool;                        (* --debug *)
  arg_dry_run : bool                       (* --dry-run *)
}.

(** ** The environment of one invocation *)

Inductive FileKind : Type := RegularFile | Directory.

Record World : Type := {
  (* the file system *)
  fs_kind : string -> option FileKind;
  access_W_OK : string -> bool;            (* os.access(p, os.W_OK) *)
  realpath : string -> string;             (* os.path.realpath *)
  (* ciftify.niio.voxel_spacing and the comparison [!=] of its results *)
  Spacing : Type;
  voxel_spacing : string -> Spacing;
  spacing_ne : Spacing -> Spacing -> bool;
  (* ciftify.config *)
  find_fsl : string;
  find_HCP_S1200_GroupAvg : string;
  find_ciftify_global : string;
  (* WorkDirSettings.__init__: the work directory, or an exit *)
  WorkDirSettings_init : CliArgs -> result string;
  (* ciftify.utils.TempDir *)
  TempDir : string;
  (* exit status of an external command *)
  tool_status : Cmd -> Z
}.

(** [os.path.exists] and [os.path.isfile]. *)
Definition path_exists (w : World) (p : string) : bool :=
  match fs_kind w p with
  | Some _ => true
  | None => false
  end.

Definition isfile (w : World) (p : string) : bool :=
  match fs_kind w p with
  | Some RegularFile => true
  | _ => false
  end.

(** Modelled from the spec: [ciftify.utils.run], defined in another
    module of the package.  The command sequencer "fails the process on any
    non-zero exit" and the exit code is "1 on any validation or
    external-command failure": the command is issued, and a non-zero
    status ends the process with code 1. *)
Definition run (w : World) (cmd : Cmd) : M unit :=
  fun t =>
    if Z.eqb (tool_status w cmd) 0 then (Ok tt, (t ++ [cmd])%list)
    else (Exit 1, (t ++ [cmd])%list).

(** Lifts an outcome of the base class into the process monad. *)
Definition lift {A} (r : result A) : M A := fun t => (r, t).

(** [for x in l: body(x)]. *)
Fixpoint for_each {A} (l : list A) (body : A -> M unit) : M unit :=
  match l with
  | [] => ret tt
  | x :: l' => body x ;;; for_each l' body
  end.

(** ** [UserSettings] *)

Record UserSettings : Type := {
  work_dir : string;
  integer_labels : bool;
  resample : bool;
  dilate_mm : option string;
  outputname : string;
  use_ciftify_global_flag : bool;
  subject : string;
  surf_dir : string;
  surf_mesh : string;
  atlas_vol : string;
  surf_roi_L : string;
  surf_roi_R : string;
  surface_nii : string;
  subcortical_nii : string
}.

Section Settings.

Variable w : World.

(** The name chosen by [get_output_filename] once the directory check has
    passed: the extension is appended unless one of the two suffixes is
    already there. *)
Definition output_filename_of (outputname : string) : string :=
  if negb (endswith outputname "dscalar.nii") then
    if negb (endswith outputname "dtseries.nii") then
      outputname ++ ".dscalar.nii"
    else outputname
  else outputname.

Definition get_output_filename (user_outputname : string) : M string :=
  let outputname := realpath w user_outputname in
  let output_dir := os_path_dirname outputname in
  exit_when (negb (access_W_OK w output_dir)) ;;;
  ret (output_filename_of outputname).

Definition use_ciftify_global (hcp_subject : string) : bool :=
  if String.eqb hcp_subject "HCP_S1200_GroupAvg" then true else false.

Definition get_subject (subject : string) : string :=
  if String.eqb subject "HCP_S1200_GroupAvg" then "S1200" else subject.

Definition get_surf_dir (use_global : bool) (work_dir subject : string)
  : string :=
  if use_global then find_HCP_S1200_GroupAvg w
  else os_path_join work_dir [subject; "MNINonLinear"; "fsaverage_LR32k"].

Definition get_surface_mesh (use_global use_MSMall : bool) : string :=
  if use_global then "_MSMAll.32k_fs_LR"
  else if use_MSMall then "_MSMAll.32k_fs_LR"
  else ".32k_fs_LR".

(** The path tested and returned by [get_atlas_vol]. *)
Definition atlas_vol_path (use_global : bool) (work_dir subject : string)
  : string :=
  if use_global then
    os_path_join (find_ciftify_global w)
      ["91282_Greyordinates"; "Atlas_ROIs.2.nii.gz"]
  else
    os_path_join work_dir
      [subject; "MNINonLinear"; "ROIs"; "Atlas_ROIs.2.nii.gz"].

Definition get_atlas_vol (use_global : bool) (work_dir subject : string)
  : M string :=
  let atlas_vol := atlas_vol_path use_global work_dir subject in
  exit_when (negb (path_exists w atlas_vol)) ;;;
  ret atlas_vol.

(** The path tested and returned by [get_surf_roi]. *)
Definition surf_roi_path (use_global : bool) (surf_dir subject hemi : string)
  : string :=
  if use_global then
    os_path_join (find_ciftify_global w)
      ["91282_Greyordinates"; hemi ++ ".atlasroi.32k_fs_LR.shape.gii"]
  else
    os_path_join surf_dir
      [subject ++ "." ++ hemi ++ ".atlasroi.32k_fs_LR.shape.gii"].

Definition get_surf_roi (use_global : bool) (surf_dir subject hemi : string)
  : M string :=
  let surf_roi := surf_roi_path use_global surf_dir subject hemi in
  exit_when (negb (path_exists w surf_roi)) ;;;
  ret surf_roi.

(** [x = arguments[opt]; if not x: x = arguments['<vol.nii.gz>']]. *)
Definition vol_or_default (opt : option string) (vol : string) : string :=
  match opt with
  | Some s => if truthy s then s else vol
  | None => vol
  end.

Definition get_surface_nii (arguments : CliArgs) : M string :=
  let surface_nii := vol_or_default (arg_surface_vol arguments)
                                    (arg_vol arguments) in
  exit_when (negb (isfile w surface_nii)) ;;;
  exit_when (negb (truthy surface_nii)) ;;;
  ret surface_nii.

Definition get_subcortical_nii (resample : bool) (atlas_vol : string)
    (arguments : CliArgs) : M string :=
  let subcortical_nii := vol_or_default (arg_subcortical_vol arguments)
                                        (arg_vol arguments) in
  exit_when (negb (isfile w subcortical_nii)) ;;;
  (if negb resample then
     let atlas_spacing := voxel_spacing w atlas_vol in
     exit_when (spacing_ne w (voxel_spacing w subcortical_nii) atlas_spacing)
   else ret tt) ;;;
  ret subcortical_nii.

(** The body of [UserSettings.__init__] after the base class has set
    [work_dir]. *)
Definition UserSettings_fields (work_dir : string) (arguments : CliArgs)
  : M UserSettings :=
  let integer_labels := arg_integer_labels arguments in
  let resample := arg_resample_nifti arguments in
  let dilate_mm := arg_dilate arguments in
  outputname <- get_output_filename (arg_output arguments) ;;
  let use_global := use_ciftify_global (arg_subject arguments) in
  let subject := get_subject (arg_subject arguments) in
  let surf_dir := get_surf_dir use_global work_dir subject in
  let surf_mesh := get_surface_mesh use_global (arg_HCP_MSMAll arguments) in
  atlas_vol <- get_atlas_vol use_global work_dir subject ;;
  surf_roi_L <- get_surf_roi use_global surf_dir subject "L" ;;
  surf_roi_R <- get_surf_roi use_global surf_dir subject "R" ;;
  surface_nii <- get_surface_nii arguments ;;
  subcortical_nii <- get_subcortical_nii resample atlas_vol arguments ;;
  ret {| work_dir := work_dir;
         integer_labels := integer_labels;
         resample := resample;
         dilate_mm := dilate_mm;
         outputname := outputname;
         use_ciftify_global_flag := use_global;
         subject := subject;
         surf_dir := surf_dir;
         surf_mesh := surf_mesh;
         atlas_vol := atlas_vol;
         surf_roi_L := surf_roi_L;
         surf_roi_R := surf_roi_R;
         surface_nii := surface_nii;
         subcortical_nii := subcortical_nii |}.

(** [UserSettings.__init__]. *)
Definition UserSettings_init (arguments : CliArgs) : M UserSettings :=
  work_dir <- lift (WorkDirSettings_init w arguments) ;;
  UserSettings_fields work_dir arguments.

(** ** The command sequencer *)

(** [os.path.join(settings.surf_dir,
      '{}.{}.<kind>{}.surf.gii'.format(subject, hemi, surf_mesh))]. *)
Definition surf_file (settings : UserSettings) (hemi kind : string) : string :=
  os_path_join (surf_dir settings)
    [subject settings ++ "." ++ hemi ++ "." ++ kind ++ surf_mesh settings
       ++ ".surf.gii"].

Definition surf_mapping_cmd (settings : UserSettings) (tmpdir hemi : string)
  : Cmd :=
  let cmd := ["wb_command"; "-volume-to-surface-mapping";
              surface_nii settings;
              surf_file settings hemi "midthickness";
              os_path_join tmpdir [hemi ++ ".func.gii"]] in
  if integer_labels settings then (cmd ++ ["-enclosing"])%list
  else (cmd ++ ["-ribbon-constrained";
                surf_file settings hemi "white";
                surf_file settings hemi "pial"])%list.

Definition run_ciftify_vol_result (settings : UserSettings) (tmpdir : string)
  : M (option Z) :=
  (* project the surface data *)
  for_each ["L"; "R"] (fun hemi =>
    run w (surf_mapping_cmd settings tmpdir hemi)) ;;;
  (* if asked to resample the volume...do this step *)
  rinput_subcortical <-
    (if resample settings then
       let rinput_subcortical := os_path_join tmpdir ["input_nii_r.nii.gz"] in
       let resample_method :=
         if integer_labels settings then "ENCLOSING_VOXEL" else "CUBIC" in
       run w ["wb_command"; "-volume-affine-resample";
              subcortical_nii settings;
              os_path_join (find_fsl w) ["etc"; "flirtsch/ident.mat"];
              atlas_vol settings;
              resample_method;
              rinput_subcortical] ;;;
       ret rinput_subcortical
     else ret (subcortical_nii settings)) ;;
  let dense_out :=
    if truthy_opt (dilate_mm settings) then
      if endswith (outputname settings) "dtseries.nii" then
        os_path_join tmpdir ["dense1.dtseries.nii"]
      else os_path_join tmpdir ["dense1.dscalar.nii"]
    else outputname settings in
  (* combine all three into a dscalar *)
  let wb_subcommand :=
    if endswith (outputname settings) "dtseries.nii" then
      "-cifti-create-dense-timeseries"
    else "-cifti-create-dense-scalar" in
  run w ["wb_command"; wb_subcommand;
         dense_out;
         "-volume"; rinput_subcortical; atlas_vol settings;
         "-left-metric"; os_path_join tmpdir ["L.func.gii"];
         "-roi-left"; surf_roi_L settings;
         "-right-metric"; os_path_join tmpdir ["R.func.gii"];
         "-roi-right"; surf_roi_R settings] ;;;
  (* run the dilation if asked for *)
  (if truthy_opt (dilate_mm settings) then
     let mm := match dilate_mm settings with Some s => s | None => "None" end in
     let dilate_cmd :=
       ["wb_command"; "-cifti-dilate";
        dense_out; "COLUMN";
        mm; mm;
        outputname settings;
        "-left-surface"; surf_file settings "L" "midthickness";
        "-right-surface"; surf_file settings "R" "midthickness"] in
     let dilate_cmd :=
       if integer_labels settings then (dilate_cmd ++ ["-nearest"])%list
       else dilate_cmd in
     run w dilate_cmd
   else ret tt) ;;;
  (* the function has no return statement: it yields None *)
  ret None.

(** [sys.exit(arg)]: [None] is exit status 0. *)
Definition sys_exit_with {A} (arg : option Z) : M A :=
  sys_exit (match arg with None => 0%Z | Some n => n end).

Definition main (arguments : CliArgs) : M unit :=
  settings <- UserSettings_init arguments ;;
  let tmpdir := TempDir w in
  ret_code <- run_ciftify_vol_result settings tmpdir ;;
  sys_exit_with ret_code.

End Settings.

(** ** Resolved paths and validation failures *)

Section Resolved.

Variable w : World.

(** The paths an invocation resolves, as functions of the work directory
    and the arguments. *)
Definition output_real (a : CliArgs) : string := realpath w (arg_output a).

Definition surf_dir_of (wd : string) (a : CliArgs) : string :=
  get_surf_dir w (use_ciftify_global (arg_subject a)) wd
    (get_subject (arg_subject a)).

Definition atlas_of (wd : string) (a : CliArgs) : string :=
  atlas_vol_path w (use_ciftify_global (arg_subject a)) wd
    (get_subject (arg_subject a)).

Definition roi_of (wd : string) (a : CliArgs) (hemi : string) : string :=
  surf_roi_path w (use_ciftify_global (arg_subject a)) (surf_dir_of wd a)
    (get_subject (arg_subject a)) hemi.

Definition surface_input (a : CliArgs) : string :=
  vol_or_default (arg_surface_vol a) (arg_vol a).

Definition subcortical_input (a : CliArgs) : string :=
  vol_or_default (arg_subcortical_vol a) (arg_vol a).

(** The validation failures. *)
Definition unwritable_output (a : CliArgs) : bool :=
  negb (access_W_OK w (os_path_dirname (output_real a))).

Definition missing_atlas (wd : string) (a : CliArgs) : bool :=
  negb (path_exists w (atlas_of wd a)).

Definition missing_roi (wd : string) (a : CliArgs) : bool :=
  negb (path_exists w (roi_of wd a "L"))
  || negb (path_exists w (roi_of wd a "R")).

Definition missing_input (a : CliArgs) : bool :=
  negb (isfile w (surface_input a)) || negb (truthy (surface_input a))
  || negb (isfile w (subcortical_input a)).

Definition spacing_mismatch (wd : string) (a : CliArgs) : bool :=
  negb (arg_resample_nifti a)
  && spacing_ne w (voxel_spacing w (subcortical_input a))
                  (voxel_spacing w (atlas_of wd a)).

Definition validation_failure (wd : string) (a : CliArgs) : bool :=
  unwritable_output a || missing_atlas wd a || missing_roi wd a
  || missing_input a || spacing_mismatch wd a.

(** The settings object built when no validation fails. *)
Definition resolved (wd : string) (a : CliArgs) : UserSettings :=
  {| work_dir := wd;
     integer_labels := arg_integer_labels a;
     resample := arg_resample_nifti a;
     dilate_mm := arg_dilate a;
     outputname := output_filename_of (output_real a);
     use_ciftify_global_flag := use_ciftify_global (arg_subject a);
     subject := get_subject (arg_subject a);
     surf_dir := surf_dir_of wd a;
     surf_mesh := get_surface_mesh (use_ciftify_global (arg_subject a))
                                   (arg_HCP_MSMAll a);
     atlas_vol := atlas_of wd a;
     surf_roi_L := roi_of wd a "L";
     surf_roi_R := roi_of wd a "R";
     surface_nii := surface_input a;
     subcortical_nii := subcortical_input a |}.

(** The paths whose existence the settings test. *)
Definition checked_paths (wd : string) (a : CliArgs) : list string :=
  [atlas_of wd a; roi_of wd a "L"; roi_of wd a "R";
   surface_input a; subcortical_input a].

(** The surface mesh files named in the commands. *)
Definition mesh_paths (wd : string) (a : CliArgs) : list string :=
  flat_map (fun hemi =>
              map (surf_file (resolved wd a) hemi)
                  ["midthickness"; "white"; "pial"])
           ["L"; "R"].

End Resolved.

(** ** Observing a run *)

(** The commands issued by a computation started with none issued, and
    its outcome. *)
Definition issued {A} (m : M A) : list Cmd := snd (m []).
Definition outcome {A} (m : M A) : result A := fst (m []).

(** The sub-command of a [wb_command] call and its positional arguments. *)
Definition subcommand (c : Cmd) : string := nth 1 c "".
Definition argument (n : nat) (c : Cmd) : string := nth n c "".

(** The dense-CIFTI creation step is the call of one of the two
    [-cifti-create-dense-*] sub-commands. *)
Definition is_dense_create (c : Cmd) : Prop :=
  subcommand c = "-cifti-create-dense-timeseries"
  \/ subcommand c = "-cifti-create-dense-scalar".

Definition succeeds (w : World) (c : Cmd) : bool := Z.eqb (tool_status w c) 0.

(** Every command of a list succeeds. *)
Definition all_succeed (w : World) (cmds : list Cmd) : bool :=
  forallb (succeeds w) cmds.

(** The commands of a list that are issued when they are run in order
    and the first failure ends the process. *)
Fixpoint until_failure (w : World) (cmds : list Cmd) : list Cmd :=
  match cmds with
  | [] => []
  | c :: cmds' => c :: (if succeeds w c then until_failure w cmds' else [])
  end.

Section Planned.

Variable w : World.
Variable settings : UserSettings.
Variable tmpdir : string.

(** The volume handed to dense-CIFTI creation. *)
Definition planned_rinput : string :=
  if resample settings then os_path_join tmpdir ["input_nii_r.nii.gz"]
  else subcortical_nii settings.

Definition planned_resample : Cmd :=
  ["wb_command"; "-volume-affine-resample";
   subcortical_nii settings;
   os_path_join (find_fsl w) ["etc"; "flirtsch/ident.mat"];
   atlas_vol settings;
   if integer_labels settings then "ENCLOSING_VOXEL" else "CUBIC";
   os_path_join tmpdir ["input_nii_r.nii.gz"]].

Definition planned_dense_out : string :=
  if truthy_opt (dilate_mm settings) then
    if endswith (outputname settings) "dtseries.nii" then
      os_path_join tmpdir ["dense1.dtseries.nii"]
    else os_path_join tmpdir ["dense1.dscalar.nii"]
  else outputname settings.

Definition planned_dense : Cmd :=
  ["wb_command";
   if endswith (outputname settings) "dtseries.nii" then
     "-cifti-create-dense-timeseries"
   else "-cifti-create-dense-scalar";
   planned_dense_out;
   "-volume"; planned_rinput; atlas_vol settings;
   "-left-metric"; os_path_join tmpdir ["L.func.gii"];
   "-roi-left"; surf_roi_L settings;
   "-right-metric"; os_path_join tmpdir ["R.func.gii"];
   "-roi-right"; surf_roi_R settings].

(** The positional part of the dilation call. *)
Definition planned_dilate_args : Cmd :=
  ["wb_command"; "-cifti-dilate";
   planned_dense_out; "COLUMN";
   match dilate_mm settings with Some s => s | None => "None" end;
   match dilate_mm settings with Some s => s | None => "None" end;
   outputname settings;
   "-left-surface"; surf_file settings "L" "midthickness";
   "-right-surface"; surf_file settings "R" "midthickness"].

Definition planned_dilate : Cmd :=
  (planned_dilate_args
   ++ if integer_labels settings then ["-nearest"] else [])%list.

(** The whole sequence of one run, in order. *)
Definition planned : list Cmd :=
  ([surf_mapping_cmd settings tmpdir "L"; surf_mapping_cmd settings tmpdir "R"]
   ++ (if resample settings then [planned_resample] else [])
   ++ [planned_dense]
   ++ (if truthy_opt (dilate_mm settings) then [planned_dilate] else []))%list.

End Planned.

(** ** Changing one part of an invocation *)

(** The environment with another outcome of the base class. *)
Definition with_work_dir (w : World) (f : CliArgs -> result string) : World :=
  {| fs_kind := fs_kind w;
     access_W_OK := access_W_OK w;
     realpath := realpath w;
     Spacing := Spacing w;
     voxel_spacing := voxel_spacing w;
     spacing_ne := spacing_ne w;
     find_fsl := find_fsl w;
     find_HCP_S1200_GroupAvg := find_HCP_S1200_GroupAvg w;
     find_ciftify_global := find_ciftify_global w;
     WorkDirSettings_init := f;
     TempDir := TempDir w;
     tool_status := tool_status w |}.

(** The environment with other NIfTI headers and another comparison. *)
Definition with_spacing (w : World) (S : Type) (vs : string -> S)
    (ne : S -> S -> bool) : World :=
  {| fs_kind := fs_kind w;
     access_W_OK := access_W_OK w;
     realpath := realpath w;
     Spacing := S;
     voxel_spacing := vs;
     spacing_ne := ne;
     find_fsl := find_fsl w;
     find_HCP_S1200_GroupAvg := find_HCP_S1200_GroupAvg w;
     find_ciftify_global := find_ciftify_global w;
     WorkDirSettings_init := WorkDirSettings_init w;
     TempDir := TempDir w;
     tool_status := tool_status w |}.

(** The arguments with another [<vol.nii.gz>]. *)
Definition with_vol (a : CliArgs) (v : string) : CliArgs :=
  {| arg_subject := arg_subject a; arg_vol := v; arg_output := arg_output a;
     arg_ciftify_work_dir := arg_ciftify_work_dir a;
     arg_integer_labels := arg_integer_labels a;
     arg_surface_vol := arg_surface_vol a;
     arg_subcortical_vol := arg_subcortical_vol a;
     arg_dilate := arg_dilate a;
     arg_HCP_Pipelines := arg_HCP_Pipelines a;
     arg_HCP_MSMAll := arg_HCP_MSMAll a;
     arg_resample_nifti := arg_resample_nifti a;
     arg_hcp_data_dir := arg_hcp_data_dir a;
     arg_debug := arg_debug a; arg_dry_run := arg_dry_run a |}.

(** The arguments with another [--HCP-MSMAll]. *)
Definition with_MSMAll (a : CliArgs) (b : bool) : CliArgs :=
  {| arg_subject := arg_subject a; arg_vol := arg_vol a;
     arg_output := arg_output a;
     arg_ciftify_work_dir := arg_ciftify_work_dir a;
     arg_integer_labels := arg_integer_labels a;
     arg_surface_vol := arg_surface_vol a;
     arg_subcortical_vol := arg_subcortical_vol a;
     arg_dilate := arg_dilate a;
     arg_HCP_Pipelines := arg_HCP_Pipelines a;
     arg_HCP_MSMAll := b;
     arg_resample_nifti := arg_resample_nifti a;
     arg_hcp_data_dir := arg_hcp_data_dir a;
     arg_debug := arg_debug a; arg_dry_run := arg_dry_run a |}.

(** Two argument dictionaries agree on every key that [UserSettings] and
    [run_ciftify_vol_result] look up; they may differ in [--dry-run] and
    [--HCP-Pipelines], which are never looked up, in [--debug], which
    only sets the logging level, and in the two work-directory options,
    which only the base class reads. *)
Definition reads_same (a a' : CliArgs) : Prop :=
  arg_subject a = arg_subject a'
  /\ arg_vol a = arg_vol a'
  /\ arg_output a = arg_output a'
  /\ arg_integer_labels a = arg_integer_labels a'
  /\ arg_surface_vol a = arg_surface_vol a'
  /\ arg_subcortical_vol a = arg_subcortical_vol a'
  /\ arg_dilate a = arg_dilate a'
  /\ arg_HCP_MSMAll a = arg_HCP_MSMAll a'
  /\ arg_resample_nifti a = arg_resample_nifti a'.

(** ** The helper of the test class [TestUserSettings]

    A recorded call of the mocked [run] is represented by its first
    positional argument, the command list. *)

Module TestUserSettings.

Definition palette : string := "PALETTE-NAME".

(** [x in l] for a list of strings. *)
Definition contains (x : string) (l : list string) : bool :=
  existsb (String.eqb x) l.

(** The two nested tests of the loop body on one recorded call. *)
Definition palette_hit (strict_check : bool) (arg_list : Cmd) : bool :=
  contains "-palette-name" arg_list
  && (strict_check || contains palette arg_list).

Definition palette_changed (call_args_list : list Cmd) (strict_check : bool)
  : bool :=
  fold_left
    (fun changed arg_list =>
       if contains "-palette-name" arg_list then
         (* If strict_check any changes to the palette will be caught *)
         if strict_check || contains palette arg_list then true
         else changed
       else changed)
    call_args_list false.

End TestUserSettings.

(** ** Concrete invocations

    A small family of environments used to run the embedding: a file
    system given by the list of its regular files, spacings given in
    micrometres, and external tools that fail on listed commands. *)

Module Sample.

Definition mem (p : string) (l : list string) : bool :=
  existsb (String.eqb p) l.

Definition zooms : Type := (Z * Z * Z)%type.

Definition zooms_ne (a b : zooms) : bool :=
  match a, b with
  | (a1, a2, a3), (b1, b2, b3) =>
      negb (Z.eqb a1 b1 && Z.eqb a2 b2 && Z.eqb a3 b3)
  end.

Fixpoint zooms_of (tbl : list (string * zooms)) (p : string) : zooms :=
  match tbl with
  | [] => (2000, 2000, 2000)%Z
  | (q, z) :: tbl' => if String.eqb p q then z else zooms_of tbl' p
  end.

Definition world (files writable : list string)
    (tbl : list (string * zooms)) (wd : string) (failing : list Cmd) : World :=
  {| fs_kind := fun p => if mem p files then Some RegularFile else None;
     access_W_OK := fun p => mem p writable;
     realpath := fun p => p;
     Spacing := zooms;
     voxel_spacing := zooms_of tbl;
     spacing_ne := zooms_ne;
     find_fsl := "/opt/fsl";
     find_HCP_S1200_GroupAvg := "/opt/ciftify/data/HCP_S1200_GroupAvg_v1";
     find_ciftify_global := "/opt/ciftify/data";
     WorkDirSettings_init := fun _ => Ok wd;
     TempDir := "/tmp/tmp0";
     tool_status := fun c =>
       if existsb (fun c' => if list_eq_dec string_dec c c' then true else false)
                  failing
       then 1%Z else 0%Z |}.

Definition args (subj vol out : string) (labels resamp msm : bool)
    (dil : option string) : CliArgs :=
  {| arg_subject := subj; arg_vol := vol; arg_output := out;
     arg_ciftify_work_dir := None;
     arg_integer_labels := labels;
     arg_surface_vol := None; arg_subcortical_vol := None;
     arg_dilate := dil;
     arg_HCP_Pipelines := false; arg_HCP_MSMAll := msm;
     arg_resample_nifti := resamp;
     arg_hcp_data_dir := None; arg_debug := false; arg_dry_run := false |}.

(** The files of subject [sub-01] under [/work] that the settings test,
    and an input volume. *)
Definition files_sub01 : list string :=
  ["/work/sub-01/MNINonLinear/ROIs/Atlas_ROIs.2.nii.gz";
   "/work/sub-01/MNINonLinear/fsaverage_LR32k/sub-01.L.atlasroi.32k_fs_LR.shape.gii";
   "/work/sub-01/MNINonLinear/fsaverage_LR32k/sub-01.R.atlasroi.32k_fs_LR.shape.gii";
   "/data/in.nii.gz"].

(** The files of the group-average atlas. *)
Definition files_global : list string :=
  ["/opt/ciftify/data/91282_Greyordinates/Atlas_ROIs.2.nii.gz";
   "/opt/ciftify/data/91282_Greyordinates/L.atlasroi.32k_fs_LR.shape.gii";
   "/opt/ciftify/data/91282_Greyordinates/R.atlasroi.32k_fs_LR.shape.gii";
   "/data/in.nii.gz"].

Definition w_sub01 : World := world files_sub01 ["/out"] [] "/work" [].
Definition w_global : World := world files_global ["/out"] [] "/work" [].

(** The input volume has 3 mm voxels, the atlas the default 2 mm. *)
Definition w_mismatch : World :=
  world files_sub01 ["/out"]
    [("/data/in.nii.gz", (3000, 3000, 3000)%Z)] "/work" [].

(** The subject is given as an absolute path. *)
Definition files_abs : list string :=
  ["/data/sub-01/MNINonLinear/ROIs/Atlas_ROIs.2.nii.gz";
   "/data/sub-01.L.atlasroi.32k_fs_LR.shape.gii";
   "/data/sub-01.R.atlasroi.32k_fs_LR.shape.gii";
   "/data/in.nii.gz"].

Definition w_abs : World := world files_abs ["/out"] [] "/work" [].

Definition a_plain : CliArgs :=
  args "sub-01" "/data/in.nii.gz" "/out/res" false false false None.

Definition a_labels : CliArgs :=
  args "sub-01" "/data/in.nii.gz" "/out/res.dtseries.nii" true true true
       (Some "4").

Definition a_dilate : CliArgs :=
  args "sub-01" "/data/in.nii.gz" "/out/res" false false false (Some "4").

Definition a_avg : CliArgs :=
  args "HCP_S1200_GroupAvg" "/data/in.nii.gz" "/out/res" false false false
       None.

Definition a_abs : CliArgs :=
  args "/data/sub-01" "/data/in.nii.gz" "/out/res" false false false None.

Definition a_nodot : CliArgs :=
  args "sub-01" "/data/in.nii.gz" "/out/xdscalar.nii" false false false None.

(** The dense-CIFTI creation of [a_plain] fails. *)
Definition w_dense_fails : World :=
  world files_sub01 ["/out"] [] "/work"
    [planned_dense (resolved w_sub01 "/work" a_plain) "/tmp/tmp0"].

End Sample.

(** Further invocations. *)

Module SampleMore.

Import Sample.

(** The input volume is a directory. *)
Definition w_dir_input : World :=
  {| fs_kind := fun p =>
       if String.eqb p "/data/in.nii.gz" then Some Directory
       else fs_kind w_sub01 p;
     access_W_OK := access_W_OK w_sub01;
     realpath := realpath w_sub01;
     Spacing := Spacing w_sub01;
     voxel_spacing := voxel_spacing w_sub01;
     spacing_ne := spacing_ne w_sub01;
     find_fsl := find_fsl w_sub01;
     find_HCP_S1200_GroupAvg := find_HCP_S1200_GroupAvg w_sub01;
     find_ciftify_global := find_ciftify_global w_sub01;
     WorkDirSettings_init := WorkDirSettings_init w_sub01;
     TempDir := TempDir w_sub01;
     tool_status := tool_status w_sub01 |}.

(** Separate volumes for the surface and for the subcortical step. *)
Definition files_split : list string :=
  (files_sub01 ++ ["/data/surf.nii.gz"; "/data/sub.nii.gz"])%list.

Definition w_split : World := world files_split ["/out"] [] "/work" [].

Definition a_split : CliArgs :=
  {| arg_subject := "sub-01"; arg_vol := "/data/in.nii.gz";
     arg_output := "/out/res";
     arg_ciftify_work_dir := None;
     arg_integer_labels := false;
     arg_surface_vol := Some "/data/surf.nii.gz";
     arg_subcortical_vol := Some "/data/sub.nii.gz";
     arg_dilate := None;
     arg_HCP_Pipelines := false; arg_HCP_MSMAll := false;
     arg_resample_nifti := false;
     arg_hcp_data_dir := None; arg_debug := false; arg_dry_run := false |}.

(** [a_plain] with [--dry-run] and [--HCP-Pipelines]. *)
Definition a_dry : CliArgs :=
  {| arg_subject := "sub-01"; arg_vol := "/data/in.nii.gz";
     arg_output := "/out/res";
     arg_ciftify_work_dir := None;
     arg_integer_labels := false;
     arg_surface_vol := None; arg_subcortical_vol := None;
     arg_dilate := None;
     arg_HCP_Pipelines := true; arg_HCP_MSMAll := false;
     arg_resample_nifti := false;
     arg_hcp_data_dir := None; arg_debug := false; arg_dry_run := true |}.

(** [a_plain] with [--resample-nifti]. *)
Definition a_resample : CliArgs :=
  args "sub-01" "/data/in.nii.gz" "/out/res" false true false None.

(** Calls recorded by a mocked [run]. *)
Definition calls_palette : list Cmd :=
  [["ciftify_vol_result"; "subject_id"; "/some/path/my_map.nii"];
   ["wb_command"; "-cifti-palette"; "x.dscalar.nii"; "MODE_AUTO_SCALE";
    "x.dscalar.nii"; "-palette-name"; "PALETTE-NAME"]].

End SampleMore.

(** * Properties *)

(** ** Strings *)

Section StringFacts.

Lemma endswith_refl (s : string) : endswith s s = true.
Proof. destruct s; cbn [endswith]; rewrite String.eqb_refl; reflexivity. Qed.

Lemma endswith_app (p suf : string) : endswith (p ++ suf) suf = true.
Proof.
  induction p as [|c p IH].
  - apply endswith_refl.
  - change (String c p ++ suf) with (String c (p ++ suf)). cbn [endswith].
    destruct (String.eqb (String c (p ++ suf)) suf); [reflexivity | exact IH].
Qed.

(** [endswith] is Python's test: [suf] is a suffix of [s]. *)
Lemma endswith_iff (s suf : string) :
  endswith s suf = true <-> exists p, s = p ++ suf.
Proof.
  split.
  - induction s as [|c s IH]; cbn [endswith].
    + destruct suf; simpl; [intros _; exists ""; reflexivity | discriminate].
    + destruct (String.eqb (String c s) suf) eqn:E.
      * apply String.eqb_eq in E. intros _. exists "". exact E.
      * intros H. destruct (IH H) as [p Hp].
        exists (String c p). simpl. congruence.
  - intros [p ->]. apply endswith_app.
Qed.

Lemma app_assoc_str (a b c : string) : (a ++ b) ++ c = a ++ (b ++ c).
Proof. induction a; simpl; congruence. Qed.

(** A suffix of a suffix is a suffix. *)
Lemma endswith_trans (s mid suf : string) :
  endswith s mid = true -> endswith mid suf = true -> endswith s suf = true.
Proof.
  intros H1 H2.
  apply endswith_iff in H1 as [p ->].
  apply endswith_iff in H2 as [q ->].
  rewrite <- app_assoc_str. apply endswith_app.
Qed.

Lemma length_app_str (a b : string) :
  String.length (a ++ b) = String.length a + String.length b.
Proof. induction a; simpl; congruence. Qed.

Lemma startswith_slash_cons (c : ascii) (s : string) :
  startswith (String c s) "/" = Ascii.eqb c "/"%char.
Proof.
  unfold startswith. cbn [String.prefix].
  destruct (Ascii.ascii_dec "/"%char c) as [<-|N].
  - rewrite Ascii.eqb_refl. destruct s; reflexivity.
  - symmetry. apply Ascii.eqb_neq. congruence.
Qed.

(** [os.path.join] on a relative component and a base that needs a
    separator inserts exactly one slash. *)
Lemma join_step_plain (path b : string) :
  startswith b "/" = false -> truthy path = true ->
  endswith path "/" = false ->
  join_step path b = path ++ "/" ++ b.
Proof.
  intros Hb Hp He. unfold join_step. rewrite Hb, Hp, He. reflexivity.
Qed.

Lemma truthy_app_r (a b : string) : truthy b = true -> truthy (a ++ b) = true.
Proof.
  unfold truthy. destruct b; [discriminate|]. intros _.
  destruct a; reflexivity.
Qed.

(** Appending a non-empty string decides the last character. *)
Lemma endswith_slash_app (a b : string) :
  truthy b = true -> endswith (a ++ b) "/" = endswith b "/".
Proof.
  intros Hb. induction a as [|c a IH]; [reflexivity|].
  simpl. rewrite IH.
  destruct (a ++ b) eqn:E.
  - apply (f_equal String.length) in E. rewrite length_app_str in E.
    destruct b; [discriminate|]. simpl in E. lia.
  - destruct (Ascii.eqb c "/"%char); reflexivity.
Qed.

End StringFacts.

(** The path primitives agree with Python on these inputs. *)
Example join_relative :
  os_path_join "/wd" ["sub"; "MNINonLinear"] = "/wd/sub/MNINonLinear".
Proof. reflexivity. Qed.

Example join_absolute_component :
  os_path_join "/wd" ["/sub"; "MNINonLinear"] = "/sub/MNINonLinear".
Proof. reflexivity. Qed.

Example join_trailing_slash : os_path_join "/wd/" ["sub"] = "/wd/sub".
Proof. reflexivity. Qed.

Example join_empty_base : os_path_join "" ["sub"] = "sub".
Proof. reflexivity. Qed.

Example dirname_file : os_path_dirname "/a/b/c.nii" = "/a/b".
Proof. reflexivity. Qed.

Example dirname_root : os_path_dirname "/c.nii" = "/".
Proof. reflexivity. Qed.

Example dirname_relative : os_path_dirname "c.nii" = "".
Proof. reflexivity. Qed.

Example dirname_double_slash : os_path_dirname "/a//b" = "/a".
Proof. reflexivity. Qed.

Example endswith_no_dot : endswith "xdscalar.nii" "dscalar.nii" = true.
Proof. reflexivity. Qed.

Example endswith_longer_suffix : endswith "nii" "dscalar.nii" = false.
Proof. reflexivity. Qed.

(** ** Settings resolution *)

Section SettingsFacts.

Variable w : World.

(** [UserSettings.__init__] issues no command; it yields the resolved
    settings, or exits with code 1 when a validation fails. *)
Lemma UserSettings_fields_eq (wd : string) (a : CliArgs) (t : list Cmd) :
  UserSettings_fields w wd a t =
  if validation_failure w wd a then (Exit 1, t) else (Ok (resolved w wd a), t).
Proof.
  unfold UserSettings_fields, validation_failure, unwritable_output,
    missing_atlas, missing_roi, missing_input, spacing_mismatch,
    get_output_filename, get_atlas_vol, get_surf_roi, get_surface_nii,
    get_subcortical_nii, resolved, roi_of, atlas_of, surf_dir_of,
    surface_input, subcortical_input, output_real, bind, exit_when,
    sys_exit, ret.
  destruct (access_W_OK w _); cbn [negb orb andb]; [|reflexivity].
  destruct (path_exists w (atlas_vol_path _ _ _ _));
    cbn [negb orb andb]; [|reflexivity].
  destruct (path_exists w (surf_roi_path _ _ _ _ "L"));
    cbn [negb orb andb]; [|reflexivity].
  destruct (path_exists w (surf_roi_path _ _ _ _ "R"));
    cbn [negb orb andb]; [|reflexivity].
  destruct (isfile w (vol_or_default (arg_surface_vol a) _));
    cbn [negb orb andb]; [|reflexivity].
  destruct (truthy (vol_or_default (arg_surface_vol a) _));
    cbn [negb orb andb]; [|reflexivity].
  destruct (isfile w (vol_or_default (arg_subcortical_vol a) _));
    cbn [negb orb andb]; [|reflexivity].
  destruct (arg_resample_nifti a); cbn [negb orb andb]; [reflexivity|].
  destruct (spacing_ne w _ _); reflexivity.
Qed.

Lemma UserSettings_init_eq (a : CliArgs) (t : list Cmd) :
  UserSettings_init w a t =
  match WorkDirSettings_init w a with
  | Ok wd =>
      if validation_failure w wd a then (Exit 1, t) else (Ok (resolved w wd a), t)
  | Exit c => (Exit c, t)
  end.
Proof.
  unfold UserSettings_init, bind, lift.
  destruct (WorkDirSettings_init w a); [apply UserSettings_fields_eq|reflexivity].
Qed.

End SettingsFacts.

(** ** The command sequence *)

Section SequencerFacts.

Variable w : World.

Lemma for_each_run_eq (cmds : list Cmd) (t : list Cmd) :
  for_each cmds (run w) t =
  (if all_succeed w cmds then Ok tt else Exit 1,
   (t ++ until_failure w cmds)%list).
Proof.
  revert t. induction cmds as [|c cmds IH]; intros t.
  - simpl. unfold ret. rewrite app_nil_r. reflexivity.
  - cbn [for_each all_succeed forallb until_failure].
    unfold bind, run. fold (succeeds w c).
    destruct (succeeds w c); cbn [andb].
    + rewrite IH. rewrite <- app_assoc. reflexivity.
    + reflexivity.
Qed.

(** A loop that runs one command per element runs the list of those
    commands. *)
Lemma for_each_map {A} (f : A -> Cmd) (l : list A) (t : list Cmd) :
  for_each l (fun x => run w (f x)) t = for_each (map f l) (run w) t.
Proof.
  revert t. induction l as [|x l IH]; intros t; [reflexivity|].
  cbn [for_each map]. unfold bind. destruct (run w (f x) t) as [[[]|c] t'].
  - apply IH.
  - reflexivity.
Qed.

Lemma until_failure_incl (cmds : list Cmd) (c : Cmd) :
  In c (until_failure w cmds) -> In c cmds.
Proof.
  induction cmds as [|c' cmds IH]; simpl; [tauto|].
  intros [H|H]; [left; exact H|].
  destruct (succeeds w c'); [right; apply IH; exact H | destruct H].
Qed.

Lemma until_failure_all (cmds : list Cmd) :
  all_succeed w cmds = true -> until_failure w cmds = cmds.
Proof.
  induction cmds as [|c cmds IH]; simpl; [reflexivity|].
  intros H. apply andb_prop in H as [Hc Hr].
  rewrite Hc, (IH Hr). reflexivity.
Qed.

(** [run_ciftify_vol_result] runs the planned commands in order. *)
Lemma run_ciftify_vol_result_eq (s : UserSettings) (tmp : string)
    (t : list Cmd) :
  run_ciftify_vol_result w s tmp t =
  (if all_succeed w (planned w s tmp) then Ok None else Exit 1,
   (t ++ until_failure w (planned w s tmp))%list).
Proof.
  unfold run_ciftify_vol_result, planned, planned_dilate, planned_dense,
    planned_resample, planned_dilate_args, planned_dense_out, planned_rinput.
  unfold bind at 1. rewrite for_each_map, for_each_run_eq.
  cbn [map all_succeed forallb until_failure app].
  destruct (succeeds w (surf_mapping_cmd s tmp "L")); cbn [andb];
    [|reflexivity].
  destruct (succeeds w (surf_mapping_cmd s tmp "R")); cbn [andb];
    [|reflexivity].
  rewrite <- ?app_assoc. cbn [app].
  destruct (resample s), (truthy_opt (dilate_mm s)), (integer_labels s);
    cbn [all_succeed forallb until_failure app];
    unfold bind, run, ret; unfold succeeds;
    repeat match goal with
      | |- context [Z.eqb (tool_status w ?c) 0] =>
          destruct (Z.eqb (tool_status w c) 0); cbn [andb app]
      end;
    rewrite <- ?app_assoc; reflexivity.
Qed.

(** [main]: the base class may exit; a validation failure exits with
    code 1 before any command; otherwise the planned commands run and the
    exit code is 0 when none fails and 1 at the first failure. *)
Lemma main_eq (a : CliArgs) :
  main w a [] =
  match WorkDirSettings_init w a with
  | Ok wd =>
      if validation_failure w wd a then (Exit 1, [])
      else
        let p := planned w (resolved w wd a) (TempDir w) in
        (Exit (if all_succeed w p then 0 else 1)%Z, until_failure w p)
  | Exit c => (Exit c, [])
  end.
Proof.
  unfold main. unfold bind at 1. rewrite UserSettings_init_eq.
  destruct (WorkDirSettings_init w a) as [wd|c]; [|reflexivity].
  destruct (validation_failure w wd a); [reflexivity|].
  unfold bind. rewrite run_ciftify_vol_result_eq. cbn [app].
  destruct (all_succeed w _); reflexivity.
Qed.

(** Once the settings are built, the commands of the process are those
    of [run_ciftify_vol_result] on them, in the temporary directory. *)
Lemma issued_main (a : CliArgs) (wd : string) :
  WorkDirSettings_init w a = Ok wd ->
  validation_failure w wd a = false ->
  issued (main w a) =
  issued (run_ciftify_vol_result w (resolved w wd a) (TempDir w)).
Proof.
  intros Hwd V. unfold issued.
  rewrite main_eq, Hwd, V, run_ciftify_vol_result_eq. reflexivity.
Qed.

End SequencerFacts.

(** ** The shape of the issued commands *)

Section CommandFacts.

Variable w : World.
Variable s : UserSettings.
Variable tmp : string.

Lemma issued_run_eq :
  issued (run_ciftify_vol_result w s tmp) = until_failure w (planned w s tmp).
Proof. unfold issued. rewrite run_ciftify_vol_result_eq. reflexivity. Qed.

(** A run in which no issued command fails issues the whole plan. *)
Lemma until_failure_complete (cmds : list Cmd) :
  all_succeed w (until_failure w cmds) = true -> until_failure w cmds = cmds.
Proof.
  induction cmds as [|c cmds IH]; [reflexivity|].
  cbn [until_failure all_succeed forallb].
  destruct (succeeds w c) eqn:E; cbn [andb].
  - intros H. rewrite (IH H). reflexivity.
  - discriminate.
Qed.

Lemma issued_complete :
  all_succeed w (issued (run_ciftify_vol_result w s tmp)) = true ->
  issued (run_ciftify_vol_result w s tmp) = planned w s tmp.
Proof. rewrite issued_run_eq. apply until_failure_complete. Qed.

Lemma In_planned (cmd : Cmd) :
  In cmd (planned w s tmp) ->
  cmd = surf_mapping_cmd s tmp "L" \/ cmd = surf_mapping_cmd s tmp "R"
  \/ (resample s = true /\ cmd = planned_resample w s tmp)
  \/ cmd = planned_dense s tmp
  \/ (truthy_opt (dilate_mm s) = true /\ cmd = planned_dilate s tmp).
Proof.
  unfold planned. cbn [app In].
  intros [H|[H|H]]; [auto | auto |].
  apply in_app_or in H as [H|H].
  - destruct (resample s); [|destruct H].
    destruct H as [H|[]]. auto.
  - destruct H as [H|H]; [auto 6|].
    destruct (truthy_opt (dilate_mm s)); [|destruct H].
    destruct H as [H|[]]. auto 6.
Qed.

Lemma In_issued (cmd : Cmd) :
  In cmd (issued (run_ciftify_vol_result w s tmp)) ->
  cmd = surf_mapping_cmd s tmp "L" \/ cmd = surf_mapping_cmd s tmp "R"
  \/ (resample s = true /\ cmd = planned_resample w s tmp)
  \/ cmd = planned_dense s tmp
  \/ (truthy_opt (dilate_mm s) = true /\ cmd = planned_dilate s tmp).
Proof.
  rewrite issued_run_eq. intros H.
  apply In_planned, (until_failure_incl w _ _ H).
Qed.

Lemma subcommand_mapping (hemi : string) :
  subcommand (surf_mapping_cmd s tmp hemi) = "-volume-to-surface-mapping".
Proof. unfold surf_mapping_cmd. destruct (integer_labels s); reflexivity. Qed.

Lemma subcommand_resample :
  subcommand (planned_resample w s tmp) = "-volume-affine-resample".
Proof. reflexivity. Qed.

Lemma subcommand_dense :
  subcommand (planned_dense s tmp) =
  if endswith (outputname s) "dtseries.nii"
  then "-cifti-create-dense-timeseries" else "-cifti-create-dense-scalar".
Proof. reflexivity. Qed.

Lemma subcommand_dilate :
  subcommand (planned_dilate s tmp) = "-cifti-dilate".
Proof. reflexivity. Qed.

Lemma dense_is_dense_create : is_dense_create (planned_dense s tmp).
Proof.
  unfold is_dense_create. rewrite subcommand_dense.
  destruct (endswith (outputname s) "dtseries.nii"); auto.
Qed.

End CommandFacts.

(** Splits the membership of a command in the issued list into the five
    kinds of call and computes the sub-command of each. *)
Ltac issued_cases H :=
  apply In_issued in H;
  destruct H as [H|[H|[[? H]|[H|[? H]]]]]; subst;
  rewrite ?subcommand_mapping, ?subcommand_resample, ?subcommand_dense,
    ?subcommand_dilate in *.

(** ** Claims about the command sequence *)

(** C2. With the integer-labels flag set, every surface-mapping command
    (one per hemisphere) is the positional call followed by [-enclosing]
    and the dilation command is the positional call followed by
    [-nearest]; with the flag unset, every surface-mapping command is
    followed by [-ribbon-constrained] and the white and pial surfaces of
    its hemisphere, and the dilation command has nothing after its
    positional part.  When no issued command fails, the run starts with
    the left and the right surface-mapping commands and, if dilation is
    requested, contains the dilation command. *)
Theorem mapping_and_dilation_modes (w : World) (s : UserSettings)
    (tmp : string) :
  let tr := issued (run_ciftify_vol_result w s tmp) in
  (forall cmd, In cmd tr -> subcommand cmd = "-volume-to-surface-mapping" ->
     exists hemi, (hemi = "L" \/ hemi = "R") /\
       cmd = (["wb_command"; "-volume-to-surface-mapping"; surface_nii s;
               surf_file s hemi "midthickness";
               os_path_join tmp [(hemi ++ ".func.gii")%string]]
              ++ if integer_labels s then ["-enclosing"]
                 else ["-ribbon-constrained"; surf_file s hemi "white";
                       surf_file s hemi "pial"])%list)
  /\ (forall cmd, In cmd tr -> subcommand cmd = "-cifti-dilate" ->
        exists dense_out mm,
          cmd = (["wb_command"; "-cifti-dilate"; dense_out; "COLUMN";
                  mm; mm; outputname s;
                  "-left-surface"; surf_file s "L" "midthickness";
                  "-right-surface"; surf_file s "R" "midthickness"]
                 ++ if integer_labels s then ["-nearest"] else [])%list)
  /\ (all_succeed w tr = true ->
        exists cL cR rest,
          tr = cL :: cR :: rest
          /\ subcommand cL = "-volume-to-surface-mapping"
          /\ argument 4 cL = os_path_join tmp ["L.func.gii"]
          /\ subcommand cR = "-volume-to-surface-mapping"
          /\ argument 4 cR = os_path_join tmp ["R.func.gii"]
          /\ (truthy_opt (dilate_mm s) = true ->
                exists d, In d rest /\ subcommand d = "-cifti-dilate")).
Proof.
  cbv zeta. split; [|split].
  - intros cmd H Hsub. issued_cases H.
    + exists "L". split; [auto|].
      unfold surf_mapping_cmd. destruct (integer_labels s); reflexivity.
    + exists "R". split; [auto|].
      unfold surf_mapping_cmd. destruct (integer_labels s); reflexivity.
    + discriminate.
    + destruct (endswith (outputname s) "dtseries.nii"); discriminate.
    + discriminate.
  - intros cmd H Hsub. issued_cases H.
    + discriminate.
    + discriminate.
    + discriminate.
    + destruct (endswith (outputname s) "dtseries.nii"); discriminate.
    + eexists _, _. reflexivity.
  - intros Hok. rewrite (issued_complete _ _ _ Hok).
    exists (surf_mapping_cmd s tmp "L"), (surf_mapping_cmd s tmp "R").
    eexists. split; [reflexivity|].
    rewrite !subcommand_mapping.
    repeat split;
      try (unfold surf_mapping_cmd; destruct (integer_labels s); reflexivity).
    intros Hd. exists (planned_dilate s tmp). split; [|reflexivity].
    rewrite Hd. apply in_or_app. right. right. left. reflexivity.
Qed.

(** C7. The dense-CIFTI creation command is the
    [-cifti-create-dense-timeseries] call exactly when the resolved
    output name ends in [dtseries.nii], and the
    [-cifti-create-dense-scalar] call exactly when it does not; when no
    issued command fails, the creation command is issued. *)
Theorem dense_variant_by_suffix (w : World) (s : UserSettings)
    (tmp : string) :
  let tr := issued (run_ciftify_vol_result w s tmp) in
  (forall cmd, In cmd tr -> is_dense_create cmd ->
     (subcommand cmd = "-cifti-create-dense-timeseries"
      <-> endswith (outputname s) "dtseries.nii" = true)
     /\ (subcommand cmd = "-cifti-create-dense-scalar"
         <-> endswith (outputname s) "dtseries.nii" = false))
  /\ (all_succeed w tr = true ->
        exists cmd, In cmd tr /\ is_dense_create cmd).
Proof.
  cbv zeta. split.
  - intros cmd H [Hd|Hd]; issued_cases H; try discriminate;
      destruct (endswith (outputname s) "dtseries.nii");
      try discriminate; (split; split; congruence).
  - intros Hok. rewrite (issued_complete _ _ _ Hok).
    exists (planned_dense s tmp). split; [|apply dense_is_dense_create].
    unfold planned. apply in_or_app. right. apply in_or_app. right.
    apply in_or_app. left. left. reflexivity.
Qed.

(** C10. A resample command is issued only when the resample flag is set;
    it reads the subcortical input, uses [ENCLOSING_VOXEL] when the
    integer-labels flag is set and [CUBIC] otherwise, and writes
    [input_nii_r.nii.gz] in the temporary directory.  The dense-CIFTI
    creation command takes as its volume that file when the flag is set
    and the subcortical input itself when it is unset.  When no issued
    command fails, the creation command is issued, directly after the
    resample command when the flag is set. *)
Theorem resample_feeds_dense (w : World) (s : UserSettings) (tmp : string) :
  let tr := issued (run_ciftify_vol_result w s tmp) in
  (forall cmd, In cmd tr -> subcommand cmd = "-volume-affine-resample" ->
     resample s = true
     /\ cmd = ["wb_command"; "-volume-affine-resample";
               subcortical_nii s;
               os_path_join (find_fsl w) ["etc"; "flirtsch/ident.mat"];
               atlas_vol s;
               if integer_labels s then "ENCLOSING_VOXEL" else "CUBIC";
               os_path_join tmp ["input_nii_r.nii.gz"]])
  /\ (forall cmd, In cmd tr -> is_dense_create cmd ->
        argument 3 cmd = "-volume"
        /\ argument 4 cmd =
           if resample s then os_path_join tmp ["input_nii_r.nii.gz"]
           else subcortical_nii s)
  /\ (all_succeed w tr = true ->
        if resample s then
          exists pre r d post,
            tr = (pre ++ r :: d :: post)%list
            /\ subcommand r = "-volume-affine-resample"
            /\ is_dense_create d
            /\ argument 4 d = argument 6 r
        else
          exists pre d post,
            tr = (pre ++ d :: post)%list
            /\ is_dense_create d
            /\ argument 4 d = subcortical_nii s).
Proof.
  cbv zeta. split; [|split].
  - intros cmd H Hsub. issued_cases H; try discriminate.
    + split; [assumption | reflexivity].
    + destruct (endswith (outputname s) "dtseries.nii"); discriminate.
  - intros cmd H [Hd|Hd]; issued_cases H; try discriminate;
      (split; reflexivity).
  - intros Hok. rewrite (issued_complete _ _ _ Hok). unfold planned.
    destruct (resample s) eqn:R.
    + exists [surf_mapping_cmd s tmp "L"; surf_mapping_cmd s tmp "R"],
        (planned_resample w s tmp), (planned_dense s tmp).
      eexists. split; [reflexivity|].
      split; [reflexivity|]. split; [apply dense_is_dense_create|].
      unfold argument, planned_dense, planned_rinput. cbn [nth].
      rewrite R. reflexivity.
    + exists [surf_mapping_cmd s tmp "L"; surf_mapping_cmd s tmp "R"],
        (planned_dense s tmp).
      eexists. split; [reflexivity|].
      split; [apply dense_is_dense_create|].
      unfold argument, planned_dense, planned_rinput. cbn [nth].
      rewrite R. reflexivity.
Qed.

(** ** Claims about the settings *)

Section ResolutionFacts.

Variable w : World.

Lemma UserSettings_fields_inv (wd : string) (a : CliArgs) (s : UserSettings)
    (t t' : list Cmd) :
  UserSettings_fields w wd a t = (Ok s, t') ->
  validation_failure w wd a = false /\ s = resolved w wd a /\ t' = t.
Proof.
  rewrite UserSettings_fields_eq.
  destruct (validation_failure w wd a); [discriminate|].
  intros H. injection H as <- <-. auto.
Qed.

Lemma UserSettings_init_inv (a : CliArgs) (s : UserSettings)
    (t t' : list Cmd) :
  UserSettings_init w a t = (Ok s, t') ->
  exists wd, WorkDirSettings_init w a = Ok wd
             /\ validation_failure w wd a = false
             /\ s = resolved w wd a /\ t' = t.
Proof.
  rewrite UserSettings_init_eq.
  destruct (WorkDirSettings_init w a) as [wd|c]; [|discriminate].
  destruct (validation_failure w wd a) eqn:V; [discriminate|].
  intros H. injection H as <- <-. exists wd. auto.
Qed.

Lemma isfile_exists (p : string) :
  isfile w p = true -> path_exists w p = true.
Proof.
  unfold isfile, path_exists. destruct (fs_kind w p); [reflexivity|discriminate].
Qed.

(** For the group-average subject no resolved path mentions the work
    directory. *)
Lemma global_paths (wd : string) (a : CliArgs) :
  arg_subject a = "HCP_S1200_GroupAvg" ->
  surf_dir_of w wd a = find_HCP_S1200_GroupAvg w
  /\ atlas_of w wd a =
     os_path_join (find_ciftify_global w)
       ["91282_Greyordinates"; "Atlas_ROIs.2.nii.gz"]
  /\ forall hemi,
       roi_of w wd a hemi =
       os_path_join (find_ciftify_global w)
         ["91282_Greyordinates"; hemi ++ ".atlasroi.32k_fs_LR.shape.gii"].
Proof.
  intros E. unfold surf_dir_of, atlas_of, roi_of, get_surf_dir,
    atlas_vol_path, surf_roi_path, use_ciftify_global.
  rewrite E. auto.
Qed.

Lemma global_validation (wd wd' : string) (a : CliArgs) :
  arg_subject a = "HCP_S1200_GroupAvg" ->
  validation_failure w wd a = validation_failure w wd' a.
Proof.
  intros E.
  destruct (global_paths wd a E) as [_ [Ha Hr]].
  destruct (global_paths wd' a E) as [_ [Ha' Hr']].
  unfold validation_failure, missing_atlas, missing_roi, spacing_mismatch.
  rewrite Ha, Ha', !Hr, !Hr'. reflexivity.
Qed.

Lemma not_sentinel (subj : string) :
  subj <> "HCP_S1200_GroupAvg" ->
  use_ciftify_global subj = false /\ get_subject subj = subj.
Proof.
  intros N. unfold use_ciftify_global, get_subject.
  apply String.eqb_neq in N. rewrite N. auto.
Qed.

(** The three-component join below a plain directory and subject. *)
Lemma join_subject_dir (wd subj : string) :
  truthy wd = true -> endswith wd "/" = false ->
  truthy subj = true -> startswith subj "/" = false ->
  endswith subj "/" = false ->
  os_path_join wd [subj; "MNINonLinear"; "fsaverage_LR32k"] =
  wd ++ "/" ++ subj ++ "/MNINonLinear/fsaverage_LR32k".
Proof.
  intros Hwd Hwe Hs Hss Hse.
  unfold os_path_join. cbn [fold_left].
  rewrite (join_step_plain wd subj Hss Hwd Hwe).
  assert (Hp : truthy (wd ++ "/" ++ subj) = true)
    by (apply truthy_app_r; reflexivity).
  assert (He : endswith (wd ++ "/" ++ subj) "/" = false).
  { rewrite endswith_slash_app by reflexivity.
    rewrite (endswith_slash_app "/" subj Hs). exact Hse. }
  rewrite (join_step_plain _ "MNINonLinear" eq_refl Hp He).
  rewrite join_step_plain.
  - rewrite !app_assoc_str. reflexivity.
  - reflexivity.
  - apply truthy_app_r. reflexivity.
  - rewrite endswith_slash_app by reflexivity. reflexivity.
Qed.

End ResolutionFacts.

(** C1. When the resample flag is unset and the voxel spacing of the
    subcortical input differs from that of the atlas volume, the process
    exits with the non-zero code 1 and no external command has been
    issued. *)
Theorem spacing_mismatch_exits_before_tools (w : World) (a : CliArgs)
    (wd : string) :
  WorkDirSettings_init w a = Ok wd ->
  arg_resample_nifti a = false ->
  spacing_ne w (voxel_spacing w (subcortical_input a))
               (voxel_spacing w (atlas_of w wd a)) = true ->
  exists code, outcome (main w a) = Exit code /\ code <> 0%Z
               /\ issued (main w a) = [].
Proof.
  intros Hwd Hr Hne. exists 1%Z.
  unfold outcome, issued. rewrite main_eq, Hwd.
  assert (V : validation_failure w wd a = true).
  { unfold validation_failure, spacing_mismatch.
    rewrite Hr, Hne. apply orb_true_r. }
  rewrite V. repeat split. discriminate.
Qed.

(** C3 (as amended). The atlas volume, the two surface ROI masks, the
    surface input volume and the subcortical input volume are tested
    before any external command: if one of them is missing the process
    exits with code 1 and no command is issued, so whenever a command is
    issued all of them exist. *)
Theorem checked_paths_exist (w : World) (a : CliArgs) (wd : string) :
  WorkDirSettings_init w a = Ok wd ->
  ((exists p, In p (checked_paths w wd a) /\ path_exists w p = false) ->
   main w a [] = (Exit 1%Z, []))
  /\ (issued (main w a) <> [] ->
      forall p, In p (checked_paths w wd a) -> path_exists w p = true).
Proof.
  intros Hwd.
  assert (Hmiss : (exists p, In p (checked_paths w wd a)
                             /\ path_exists w p = false) ->
                  main w a [] = (Exit 1%Z, [])).
  { intros [p [Hin Hp]]. rewrite main_eq, Hwd.
    assert (V : validation_failure w wd a = true);
      [|rewrite V; reflexivity].
    assert (Hf : isfile w p = false).
    { destruct (isfile w p) eqn:F; [|reflexivity].
      rewrite (isfile_exists _ _ F) in Hp. discriminate. }
    unfold validation_failure, missing_atlas, missing_roi, missing_input.
    unfold checked_paths in Hin. cbn [In] in Hin.
    destruct Hin as [<-|[<-|[<-|[<-|[<-|[]]]]]];
      rewrite ?Hp, ?Hf; cbn [negb orb];
      rewrite ?orb_true_r; reflexivity. }
  split; [exact Hmiss|].
  intros Hiss p Hin.
  destruct (path_exists w p) eqn:Hp; [reflexivity|].
  exfalso. apply Hiss. unfold issued. rewrite Hmiss; [reflexivity|].
  exists p. auto.
Qed.

(** C4 (as amended). When the directory of the real path of the output
    is writable, a name is resolved: it ends in [dscalar.nii] or in
    [dtseries.nii]; it is the real path itself when that already ends in
    one of the two, and the real path followed by [.dscalar.nii]
    otherwise. *)
Theorem output_filename_suffix (w : World) (user_outputname : string) :
  access_W_OK w (os_path_dirname (realpath w user_outputname)) = true ->
  exists name,
    get_output_filename w user_outputname [] = (Ok name, [])
    /\ (endswith name "dscalar.nii" = true
        \/ endswith name "dtseries.nii" = true)
    /\ (endswith (realpath w user_outputname) "dscalar.nii" = true
        \/ endswith (realpath w user_outputname) "dtseries.nii" = true ->
        name = realpath w user_outputname)
    /\ (endswith (realpath w user_outputname) "dscalar.nii" = false ->
        endswith (realpath w user_outputname) "dtseries.nii" = false ->
        name = realpath w user_outputname ++ ".dscalar.nii"
        /\ endswith name ".dscalar.nii" = true).
Proof.
  intros Hacc. unfold get_output_filename, bind, exit_when, ret.
  rewrite Hacc. cbn [negb]. eexists. split; [reflexivity|].
  unfold output_filename_of.
  destruct (endswith (realpath w user_outputname) "dscalar.nii") eqn:E1;
    cbn [negb].
  - split; [left; exact E1|]. split; [reflexivity | discriminate].
  - destruct (endswith (realpath w user_outputname) "dtseries.nii") eqn:E2;
      cbn [negb].
    + split; [right; exact E2|]. split; [reflexivity | discriminate].
    + split; [left|split].
      * apply endswith_trans with (mid := ".dscalar.nii");
          [apply endswith_app | reflexivity].
      * intros [H|H]; discriminate.
      * intros _ _. split; [reflexivity | apply endswith_app].
Qed.

(** C5 (as amended). For a subject other than the group-average one the
    surface directory is the [os.path.join] of the work directory, the
    subject, [MNINonLinear] and [fsaverage_LR32k]; it is
    [<work_dir>/<subject>/MNINonLinear/fsaverage_LR32k] when the work
    directory is not empty and does not end in a slash and the subject is
    not empty and neither starts nor ends with a slash. *)
Theorem surf_dir_of_subject (w : World) (a : CliArgs) (s : UserSettings)
    (t t' : list Cmd) :
  UserSettings_init w a t = (Ok s, t') ->
  arg_subject a <> "HCP_S1200_GroupAvg" ->
  WorkDirSettings_init w a = Ok (work_dir s)
  /\ surf_dir s =
     os_path_join (work_dir s)
       [arg_subject a; "MNINonLinear"; "fsaverage_LR32k"]
  /\ (truthy (work_dir s) = true -> endswith (work_dir s) "/" = false ->
      truthy (arg_subject a) = true ->
      startswith (arg_subject a) "/" = false ->
      endswith (arg_subject a) "/" = false ->
      surf_dir s =
      work_dir s ++ "/" ++ arg_subject a ++ "/MNINonLinear/fsaverage_LR32k").
Proof.
  intros Hinit Hsub.
  destruct (UserSettings_init_inv _ _ _ Hinit) as [wd [Hwd [_ [-> _]]]].
  destruct (not_sentinel Hsub) as [Hg Hs].
  assert (Hdir : surf_dir (resolved w wd a) =
                 os_path_join wd
                   [arg_subject a; "MNINonLinear"; "fsaverage_LR32k"]).
  { cbn [surf_dir resolved]. unfold surf_dir_of, get_surf_dir.
    rewrite Hg, Hs. reflexivity. }
  cbn [work_dir resolved]. split; [exact Hwd|]. split; [exact Hdir|].
  intros. rewrite Hdir. apply join_subject_dir; assumption.
Qed.

(** C6. For the group-average subject the surface directory is the one
    given by [find_HCP_S1200_GroupAvg] and the atlas volume and the two
    ROI masks lie under [find_ciftify_global]; with any other work
    directory the settings are built as well and these four paths are the
    same. *)
Theorem group_average_paths (w : World) (a : CliArgs) (wd : string)
    (s : UserSettings) (t t' : list Cmd) :
  arg_subject a = "HCP_S1200_GroupAvg" ->
  UserSettings_fields w wd a t = (Ok s, t') ->
  surf_dir s = find_HCP_S1200_GroupAvg w
  /\ atlas_vol s =
     os_path_join (find_ciftify_global w)
       ["91282_Greyordinates"; "Atlas_ROIs.2.nii.gz"]
  /\ surf_roi_L s =
     os_path_join (find_ciftify_global w)
       ["91282_Greyordinates"; "L.atlasroi.32k_fs_LR.shape.gii"]
  /\ surf_roi_R s =
     os_path_join (find_ciftify_global w)
       ["91282_Greyordinates"; "R.atlasroi.32k_fs_LR.shape.gii"]
  /\ forall wd', exists s',
       UserSettings_fields w wd' a t = (Ok s', t')
       /\ surf_dir s' = surf_dir s /\ atlas_vol s' = atlas_vol s
       /\ surf_roi_L s' = surf_roi_L s /\ surf_roi_R s' = surf_roi_R s.
Proof.
  intros E Hinit.
  destruct (UserSettings_fields_inv _ _ _ _ Hinit) as [V [-> ->]].
  destruct (global_paths w wd a E) as [Hd [Ha Hr]].
  cbn [surf_dir atlas_vol surf_roi_L surf_roi_R resolved].
  rewrite Hd, Ha, !Hr. repeat split.
  intros wd'. exists (resolved w wd' a).
  rewrite UserSettings_fields_eq, <- (global_validation w wd wd' a E), V.
  destruct (global_paths w wd' a E) as [Hd' [Ha' Hr']].
  cbn [surf_dir atlas_vol surf_roi_L surf_roi_R resolved].
  rewrite Hd', Ha', !Hr'. repeat split.
Qed.

(** C9. For the group-average subject the settings hold the subject
    [S1200] and the mesh suffix [_MSMAll.32k_fs_LR] whatever the MSMAll
    flag; for any other subject they hold the subject as given and the
    suffix [_MSMAll.32k_fs_LR] when the MSMAll flag is set and
    [.32k_fs_LR] when it is not. *)
Theorem subject_and_mesh_suffix (w : World) (a : CliArgs) (s : UserSettings)
    (t t' : list Cmd) :
  UserSettings_init w a t = (Ok s, t') ->
  (arg_subject a = "HCP_S1200_GroupAvg" ->
   subject s = "S1200" /\ surf_mesh s = "_MSMAll.32k_fs_LR")
  /\ (arg_subject a <> "HCP_S1200_GroupAvg" ->
      subject s = arg_subject a
      /\ surf_mesh s =
         if arg_HCP_MSMAll a then "_MSMAll.32k_fs_LR" else ".32k_fs_LR").
Proof.
  intros Hinit.
  destruct (UserSettings_init_inv _ _ _ Hinit) as [wd [_ [_ [-> _]]]].
  cbn [subject surf_mesh resolved]. split.
  - intros E. rewrite E. split; reflexivity.
  - intros N. destruct (not_sentinel N) as [Hg Hs].
    rewrite Hg, Hs. split; reflexivity.
Qed.

(** ** Exit codes *)

Lemma all_succeed_In (w : World) (cmds : list Cmd) (c : Cmd) :
  all_succeed w cmds = true -> In c (until_failure w cmds) ->
  tool_status w c = 0%Z.
Proof.
  intros Hall Hin. apply until_failure_incl in Hin.
  unfold all_succeed in Hall. rewrite forallb_forall in Hall.
  apply Z.eqb_eq. exact (Hall c Hin).
Qed.

(** C8. The process exits with code 0 exactly when no validation fails
    and no issued command fails, and then the whole command sequence has
    been issued; it exits with code 1 when the output directory is not
    writable, the atlas volume, an ROI mask or an input volume is
    missing, or the voxel spacings differ without the resample flag (and
    then no command is issued), and when an issued command fails.  No
    other exit code occurs. *)
Theorem exit_codes (w : World) (a : CliArgs) (wd : string) :
  WorkDirSettings_init w a = Ok wd ->
  (outcome (main w a) = Exit 0%Z
   <-> validation_failure w wd a = false
       /\ all_succeed w (issued (main w a)) = true)
  /\ (outcome (main w a) = Exit 0%Z ->
      issued (main w a) = planned w (resolved w wd a) (TempDir w))
  /\ (unwritable_output w a = true \/ missing_atlas w wd a = true
      \/ missing_roi w wd a = true \/ missing_input w a = true
      \/ spacing_mismatch w wd a = true ->
      outcome (main w a) = Exit 1%Z /\ issued (main w a) = [])
  /\ ((exists c, In c (issued (main w a)) /\ tool_status w c <> 0%Z) ->
      outcome (main w a) = Exit 1%Z)
  /\ (outcome (main w a) = Exit 0%Z \/ outcome (main w a) = Exit 1%Z).
Proof.
  intros Hwd. unfold outcome, issued. rewrite main_eq, Hwd.
  assert (Hfail : unwritable_output w a = true \/ missing_atlas w wd a = true
                  \/ missing_roi w wd a = true \/ missing_input w a = true
                  \/ spacing_mismatch w wd a = true ->
                  validation_failure w wd a = true).
  { unfold validation_failure.
    intros [H|[H|[H|[H|H]]]]; rewrite H; rewrite ?orb_true_r; reflexivity. }
  destruct (validation_failure w wd a) eqn:V.
  - cbn [fst snd]. split; [|split; [|split; [|split]]].
    + split; [discriminate | intros [H _]; discriminate].
    + discriminate.
    + auto.
    + auto.
    + auto.
  - cbv zeta. cbn [fst snd].
    set (p := planned w (resolved w wd a) (TempDir w)).
    destruct (all_succeed w p) eqn:A.
    + rewrite (until_failure_all w p A).
      split; [|split; [|split; [|split]]].
      * split; auto.
      * reflexivity.
      * intros H. apply Hfail in H. discriminate.
      * intros [c [Hin Hc]]. exfalso. apply Hc.
        apply (all_succeed_In w p c A). rewrite (until_failure_all w p A).
        exact Hin.
      * auto.
    + split; [|split; [|split; [|split]]].
      * split; [discriminate|]. intros [_ H]. exfalso.
        rewrite (until_failure_complete w p H) in H. congruence.
      * discriminate.
      * intros H. apply Hfail in H. discriminate.
      * auto.
      * auto.
Qed.

(** ** Concrete runs *)

Module Runs.

Import Sample.

(** A continuous volume with dilation: the last command is the dilation,
    with nothing after the right surface. *)
Example run_dilate_continuous :
  main w_sub01 a_dilate [] =
  (Exit 0%Z,
   planned w_sub01 (resolved w_sub01 "/work" a_dilate) "/tmp/tmp0")
  /\ last (issued (main w_sub01 a_dilate)) [] =
     ["wb_command"; "-cifti-dilate"; "/tmp/tmp0/dense1.dscalar.nii";
      "COLUMN"; "4"; "4"; "/out/res.dscalar.nii";
      "-left-surface";
      "/work/sub-01/MNINonLinear/fsaverage_LR32k/sub-01.L.midthickness.32k_fs_LR.surf.gii";
      "-right-surface";
      "/work/sub-01/MNINonLinear/fsaverage_LR32k/sub-01.R.midthickness.32k_fs_LR.surf.gii"].
Proof. split; vm_compute; reflexivity. Qed.

(** A missing atlas volume: exit code 1 and no command. *)
Example run_unknown_subject :
  main w_sub01
    (args "sub-02" "/data/in.nii.gz" "/out/res" false false false None) []
  = (Exit 1%Z, []).
Proof. vm_compute. reflexivity. Qed.

(** C3, as first stated, asks that the surface mesh files exist too
    before a command is issued.  For subject [sub-01] with every tested
    file present and no mesh file on disk, the commands are issued. *)
Lemma mesh_files_not_tested :
  ~ (issued (main w_sub01 a_plain) <> [] ->
     forall p,
       In p (checked_paths w_sub01 "/work" a_plain
             ++ mesh_paths w_sub01 "/work" a_plain)%list ->
       path_exists w_sub01 p = true).
Proof.
  intros H.
  assert (Hrun : issued (main w_sub01 a_plain) <> [])
    by (vm_compute; discriminate).
  specialize (H Hrun
    "/work/sub-01/MNINonLinear/fsaverage_LR32k/sub-01.L.midthickness.32k_fs_LR.surf.gii").
  assert (Hin : In
    "/work/sub-01/MNINonLinear/fsaverage_LR32k/sub-01.L.midthickness.32k_fs_LR.surf.gii"
    (checked_paths w_sub01 "/work" a_plain
     ++ mesh_paths w_sub01 "/work" a_plain)%list).
  { apply in_or_app. right. left. vm_compute. reflexivity. }
  specialize (H Hin). vm_compute in H. discriminate.
Qed.

(** C4, as first stated, asks for a name ending in [.dscalar.nii] or
    [.dtseries.nii].  The output [/out/xdscalar.nii] is kept as it is. *)
Lemma output_name_without_dot :
  ~ (forall name t,
       get_output_filename w_sub01 "/out/xdscalar.nii" [] = (Ok name, t) ->
       endswith name ".dscalar.nii" = true
       \/ endswith name ".dtseries.nii" = true).
Proof.
  intros H.
  destruct (H "/out/xdscalar.nii" [] eq_refl) as [E|E];
    vm_compute in E; discriminate.
Qed.

(** C5, as first stated, asks for the directory
    [<work_dir>/<subject>/MNINonLinear/fsaverage_LR32k] for every subject
    but the group average.  A subject given as an absolute path replaces
    the work directory. *)
Lemma absolute_subject_replaces_work_dir :
  ~ (arg_subject a_abs <> "HCP_S1200_GroupAvg" ->
     forall s t,
       UserSettings_init w_abs a_abs [] = (Ok s, t) ->
       surf_dir s =
       work_dir s ++ "/" ++ arg_subject a_abs
         ++ "/MNINonLinear/fsaverage_LR32k").
Proof.
  intros H.
  assert (N : arg_subject a_abs <> "HCP_S1200_GroupAvg")
    by (vm_compute; discriminate).
  specialize (H N _ _ eq_refl). vm_compute in H. discriminate.
Qed.

Lemma spacing_mismatch_exits_before_tools_witness :
  WorkDirSettings_init w_mismatch a_plain = Ok "/work"
  /\ arg_resample_nifti a_plain = false
  /\ spacing_ne w_mismatch
       (voxel_spacing w_mismatch (subcortical_input a_plain))
       (voxel_spacing w_mismatch (atlas_of w_mismatch "/work" a_plain)) = true
  /\ exists code, outcome (main w_mismatch a_plain) = Exit code
                  /\ code <> 0%Z /\ issued (main w_mismatch a_plain) = [].
Proof.
  split; [reflexivity|]. split; [reflexivity|]. split; [reflexivity|].
  apply (spacing_mismatch_exits_before_tools w_mismatch a_plain (wd := "/work"));
    reflexivity.
Defined.

Lemma mapping_and_dilation_modes_witness :
  all_succeed w_sub01
    (issued (run_ciftify_vol_result w_sub01
               (resolved w_sub01 "/work" a_labels) "/tmp/tmp0")) = true
  /\ exists cL cR rest,
       issued (run_ciftify_vol_result w_sub01
                 (resolved w_sub01 "/work" a_labels) "/tmp/tmp0")
       = cL :: cR :: rest
       /\ subcommand cL = "-volume-to-surface-mapping"
       /\ argument 4 cL = os_path_join "/tmp/tmp0" ["L.func.gii"]
       /\ subcommand cR = "-volume-to-surface-mapping"
       /\ argument 4 cR = os_path_join "/tmp/tmp0" ["R.func.gii"]
       /\ (truthy_opt (dilate_mm (resolved w_sub01 "/work" a_labels)) = true ->
           exists d, In d rest /\ subcommand d = "-cifti-dilate").
Proof.
  split; [reflexivity|].
  apply (proj2 (proj2 (mapping_and_dilation_modes w_sub01
                         (resolved w_sub01 "/work" a_labels) "/tmp/tmp0"))).
  reflexivity.
Defined.

Lemma checked_paths_exist_witness :
  WorkDirSettings_init w_sub01 a_plain = Ok "/work"
  /\ issued (main w_sub01 a_plain) <> []
  /\ forall p, In p (checked_paths w_sub01 "/work" a_plain) ->
               path_exists w_sub01 p = true.
Proof.
  split; [reflexivity|].
  assert (Hrun : issued (main w_sub01 a_plain) <> [])
    by (vm_compute; discriminate).
  split; [exact Hrun|].
  exact (proj2 (checked_paths_exist w_sub01 a_plain (wd := "/work") eq_refl)
               Hrun).
Defined.

Lemma output_filename_suffix_witness :
  access_W_OK w_sub01 (os_path_dirname (realpath w_sub01 "/out/res")) = true
  /\ exists name,
       get_output_filename w_sub01 "/out/res" [] = (Ok name, [])
       /\ (endswith name "dscalar.nii" = true
           \/ endswith name "dtseries.nii" = true)
       /\ (endswith (realpath w_sub01 "/out/res") "dscalar.nii" = true
           \/ endswith (realpath w_sub01 "/out/res") "dtseries.nii" = true ->
           name = realpath w_sub01 "/out/res")
       /\ (endswith (realpath w_sub01 "/out/res") "dscalar.nii" = false ->
           endswith (realpath w_sub01 "/out/res") "dtseries.nii" = false ->
           name = realpath w_sub01 "/out/res" ++ ".dscalar.nii"
           /\ endswith name ".dscalar.nii" = true).
Proof.
  split; [reflexivity|].
  apply (output_filename_suffix w_sub01 "/out/res"). reflexivity.
Defined.

Lemma surf_dir_of_subject_witness :
  UserSettings_init w_sub01 a_plain []
    = (Ok (resolved w_sub01 "/work" a_plain), [])
  /\ arg_subject a_plain <> "HCP_S1200_GroupAvg"
  /\ surf_dir (resolved w_sub01 "/work" a_plain)
     = "/work/sub-01/MNINonLinear/fsaverage_LR32k".
Proof.
  assert (N : arg_subject a_plain <> "HCP_S1200_GroupAvg")
    by (vm_compute; discriminate).
  split; [reflexivity|]. split; [exact N|].
  exact (proj2 (proj2 (@surf_dir_of_subject w_sub01 a_plain
                         (resolved w_sub01 "/work" a_plain) [] []
                         eq_refl N))
           eq_refl eq_refl eq_refl eq_refl eq_refl).
Defined.

Lemma group_average_paths_witness :
  arg_subject a_avg = "HCP_S1200_GroupAvg"
  /\ UserSettings_fields w_global "/work" a_avg []
     = (Ok (resolved w_global "/work" a_avg), [])
  /\ exists s',
       UserSettings_fields w_global "/elsewhere" a_avg [] = (Ok s', [])
       /\ surf_dir s' = "/opt/ciftify/data/HCP_S1200_GroupAvg_v1"
       /\ atlas_vol s'
          = "/opt/ciftify/data/91282_Greyordinates/Atlas_ROIs.2.nii.gz"
       /\ surf_roi_L s'
          = "/opt/ciftify/data/91282_Greyordinates/L.atlasroi.32k_fs_LR.shape.gii"
       /\ surf_roi_R s'
          = "/opt/ciftify/data/91282_Greyordinates/R.atlasroi.32k_fs_LR.shape.gii".
Proof.
  split; [reflexivity|]. split; [reflexivity|].
  destruct (@group_average_paths w_global a_avg "/work"
              (resolved w_global "/work" a_avg) [] [] eq_refl eq_refl)
    as [_ [_ [_ [_ H]]]].
  exact (H "/elsewhere").
Defined.

Lemma dense_variant_by_suffix_witness :
  all_succeed w_sub01
    (issued (run_ciftify_vol_result w_sub01
               (resolved w_sub01 "/work" a_labels) "/tmp/tmp0")) = true
  /\ exists cmd,
       In cmd (issued (run_ciftify_vol_result w_sub01
                         (resolved w_sub01 "/work" a_labels) "/tmp/tmp0"))
       /\ is_dense_create cmd.
Proof.
  split; [reflexivity|].
  apply (proj2 (dense_variant_by_suffix w_sub01
                  (resolved w_sub01 "/work" a_labels) "/tmp/tmp0")).
  reflexivity.
Defined.

Lemma exit_codes_witness :
  WorkDirSettings_init w_dense_fails a_plain = Ok "/work"
  /\ (exists c, In c (issued (main w_dense_fails a_plain))
                /\ tool_status w_dense_fails c <> 0%Z)
  /\ outcome (main w_dense_fails a_plain) = Exit 1%Z.
Proof.
  split; [reflexivity|].
  assert (Hfail : exists c, In c (issued (main w_dense_fails a_plain))
                            /\ tool_status w_dense_fails c <> 0%Z).
  { exists (planned_dense (resolved w_sub01 "/work" a_plain) "/tmp/tmp0").
    split; [vm_compute; auto | vm_compute; discriminate]. }
  split; [exact Hfail|].
  destruct (exit_codes w_dense_fails a_plain (wd := "/work") eq_refl)
    as [_ [_ [_ [H _]]]].
  exact (H Hfail).
Defined.

Lemma subject_and_mesh_suffix_witness :
  UserSettings_init w_global a_avg []
    = (Ok (resolved w_global "/work" a_avg), [])
  /\ arg_subject a_avg = "HCP_S1200_GroupAvg"
  /\ subject (resolved w_global "/work" a_avg) = "S1200"
  /\ surf_mesh (resolved w_global "/work" a_avg) = "_MSMAll.32k_fs_LR".
Proof.
  split; [reflexivity|]. split; [reflexivity|].
  exact (proj1 (@subject_and_mesh_suffix w_global a_avg
                  (resolved w_global "/work" a_avg) [] [] eq_refl)
           eq_refl).
Defined.

Lemma resample_feeds_dense_witness :
  all_succeed w_sub01
    (issued (run_ciftify_vol_result w_sub01
               (resolved w_sub01 "/work" a_labels) "/tmp/tmp0")) = true
  /\ exists pre r d post,
       issued (run_ciftify_vol_result w_sub01
                 (resolved w_sub01 "/work" a_labels) "/tmp/tmp0")
       = (pre ++ r :: d :: post)%list
       /\ subcommand r = "-volume-affine-resample"
       /\ is_dense_create d
       /\ argument 4 d = argument 6 r.
Proof.
  split; [reflexivity|].
  apply (proj2 (proj2 (resample_feeds_dense w_sub01
                         (resolved w_sub01 "/work" a_labels) "/tmp/tmp0"))
           eq_refl).
Defined.

End Runs.

(** * Further properties of the resolver and the sequencer *)

(** ** The output name *)

Section OutputName.

Variable w : World.

Lemma chars_app (a b : string) : chars (a ++ b) = (chars a ++ chars b)%list.
Proof. induction a as [|c a IH]; simpl; [reflexivity | rewrite IH; reflexivity]. Qed.

(** The appended extension holds no slash: the directory is unchanged. *)
Lemma dirname_append_ext (p : string) :
  os_path_dirname (p ++ ".dscalar.nii") = os_path_dirname p.
Proof.
  unfold os_path_dirname. rewrite chars_app, rev_app_distr. reflexivity.
Qed.

Lemma dirname_output_filename_of (p : string) :
  os_path_dirname (output_filename_of p) = os_path_dirname p.
Proof.
  unfold output_filename_of.
  destruct (endswith p "dscalar.nii"), (endswith p "dtseries.nii");
    cbn [negb]; try reflexivity.
  apply dirname_append_ext.
Qed.

Lemma output_filename_of_idem (p : string) :
  output_filename_of (output_filename_of p) = output_filename_of p.
Proof.
  unfold output_filename_of at 2 3.
  destruct (endswith p "dscalar.nii") eqn:E1; cbn [negb].
  - unfold output_filename_of. rewrite E1. reflexivity.
  - destruct (endswith p "dtseries.nii") eqn:E2; cbn [negb].
    + unfold output_filename_of. rewrite E1, E2. reflexivity.
    + unfold output_filename_of.
      assert (E : endswith (p ++ ".dscalar.nii") "dscalar.nii" = true)
        by (apply endswith_trans with (mid := ".dscalar.nii");
            [apply endswith_app | reflexivity]).
      rewrite E. reflexivity.
Qed.

Lemma get_output_filename_inv (u name : string) (t t' : list Cmd) :
  get_output_filename w u t = (Ok name, t') ->
  access_W_OK w (os_path_dirname (realpath w u)) = true
  /\ name = output_filename_of (realpath w u) /\ t' = t.
Proof.
  unfold get_output_filename, bind, exit_when, ret, sys_exit.
  destruct (access_W_OK w _); cbn [negb]; [|discriminate].
  intros H. injection H as <- <-. auto.
Qed.

End OutputName.

(** X1. The resolved output name lies in the directory that passed the
    write test: appending the extension never changes the directory. *)
Theorem output_dir_is_the_tested_one (w : World) (u name : string)
    (t t' : list Cmd) :
  get_output_filename w u t = (Ok name, t') ->
  os_path_dirname name = os_path_dirname (realpath w u)
  /\ access_W_OK w (os_path_dirname name) = true.
Proof.
  intros H. apply get_output_filename_inv in H as [Hacc [-> _]].
  rewrite dirname_output_filename_of. auto.
Qed.

(** X2. A resolved output name is stable: given back as the output
    argument (and being its own real path) it is accepted and returned
    unchanged, with no second extension. *)
Theorem output_name_is_stable (w : World) (u name : string)
    (t t' : list Cmd) :
  get_output_filename w u t = (Ok name, t') ->
  realpath w name = name ->
  get_output_filename w name t = (Ok name, t).
Proof.
  intros H Hreal.
  apply get_output_filename_inv in H as [Hacc [-> _]].
  unfold get_output_filename, bind, exit_when, ret.
  rewrite Hreal, dirname_output_filename_of, Hacc. cbn [negb].
  rewrite output_filename_of_idem. reflexivity.
Qed.

(** X3. Building the settings never issues an external command,
    whether it succeeds or exits. *)
Theorem settings_issue_no_command (w : World) (a : CliArgs) (t : list Cmd) :
  snd (UserSettings_init w a t) = t.
Proof.
  rewrite UserSettings_init_eq.
  destruct (WorkDirSettings_init w a) as [wd|c]; [|reflexivity].
  destruct (validation_failure w wd a); reflexivity.
Qed.

(** ** The commands of a run *)

Section RunFacts.

Variable w : World.
Variable s : UserSettings.
Variable tmp : string.

Lemma until_failure_length (cmds : list Cmd) :
  length (until_failure w cmds) <= length cmds.
Proof.
  induction cmds as [|c cmds IH]; simpl; [lia|].
  destruct (succeeds w c); simpl; lia.
Qed.

Lemma planned_length :
  length (planned w s tmp) =
  3 + (if resample s then 1 else 0)
    + (if truthy_opt (dilate_mm s) then 1 else 0).
Proof.
  unfold planned.
  destruct (resample s), (truthy_opt (dilate_mm s)); reflexivity.
Qed.

(** The issued commands are the two mapping commands followed by the
    issued part of the remaining plan, or the left mapping command alone. *)
Lemma issued_shape :
  issued (run_ciftify_vol_result w s tmp) = [surf_mapping_cmd s tmp "L"]
  \/ exists rest,
       issued (run_ciftify_vol_result w s tmp) =
       surf_mapping_cmd s tmp "L" :: surf_mapping_cmd s tmp "R" :: rest
       /\ (rest = [] \/
           rest = until_failure w
                    ((if resample s then [planned_resample w s tmp] else [])
                     ++ planned_dense s tmp
                     :: (if truthy_opt (dilate_mm s)
                         then [planned_dilate s tmp] else []))%list).
Proof.
  rewrite issued_run_eq. unfold planned. cbn [app until_failure].
  destruct (succeeds w (surf_mapping_cmd s tmp "L")); [|left; reflexivity].
  right. eexists. split; [reflexivity|].
  destruct (succeeds w (surf_mapping_cmd s tmp "R")); auto.
Qed.

Lemma truthy_opt_Some (o : option string) :
  truthy_opt o = true -> exists mm, o = Some mm /\ mm <> "".
Proof.
  destruct o as [mm|]; [|discriminate]. unfold truthy_opt, truthy.
  intros H. exists mm. split; [reflexivity|].
  intros ->. discriminate.
Qed.

End RunFacts.

(** X4. A run never starts a program other than [wb_command], and only
    with one of five sub-commands; it issues at most five commands, and
    exactly three plus one for the resample step and one for the dilation
    step when none fails. *)
Theorem only_wb_command (w : World) (s : UserSettings) (tmp : string) :
  let tr := issued (run_ciftify_vol_result w s tmp) in
  (forall cmd, In cmd tr ->
     argument 0 cmd = "wb_command"
     /\ In (subcommand cmd)
          ["-volume-to-surface-mapping"; "-volume-affine-resample";
           "-cifti-create-dense-timeseries"; "-cifti-create-dense-scalar";
           "-cifti-dilate"])
  /\ length tr <= 5
  /\ (all_succeed w tr = true ->
      length tr = 3 + (if resample s then 1 else 0)
                    + (if truthy_opt (dilate_mm s) then 1 else 0)).
Proof.
  cbv zeta. split; [|split].
  - intros cmd H. issued_cases H.
    + split; [|cbn [In]; auto].
      unfold surf_mapping_cmd. destruct (integer_labels s); reflexivity.
    + split; [|cbn [In]; auto].
      unfold surf_mapping_cmd. destruct (integer_labels s); reflexivity.
    + split; [reflexivity | cbn [In]; auto].
    + split; [reflexivity|].
      destruct (endswith (outputname s) "dtseries.nii"); cbn [In]; auto.
    + split; [reflexivity | cbn [In]; auto 6].
  - rewrite issued_run_eq.
    pose proof (until_failure_length w (planned w s tmp)) as H.
    rewrite planned_length in H.
    destruct (resample s), (truthy_opt (dilate_mm s)); lia.
  - intros Hok. rewrite (issued_complete _ _ _ Hok). apply planned_length.
Qed.

(** Closes a goal whose hypotheses identify two commands of different
    sub-commands. *)
Ltac clash :=
  match goal with
  | H : _ = _ |- _ =>
      apply (f_equal subcommand) in H;
      rewrite ?subcommand_mapping, ?subcommand_resample, ?subcommand_dense,
        ?subcommand_dilate in H;
      solve [ discriminate H
            | match type of H with
              | context [endswith ?a ?b] => destruct (endswith a b)
              end; discriminate H ]
  end.

Lemma mapping_not_dense (s : UserSettings) (tmp hemi : string) :
  ~ is_dense_create (surf_mapping_cmd s tmp hemi).
Proof.
  unfold is_dense_create. rewrite subcommand_mapping.
  intros [H|H]; discriminate.
Qed.

Lemma mapping_output (s : UserSettings) (tmp : string) :
  argument 4 (surf_mapping_cmd s tmp "L") = os_path_join tmp ["L.func.gii"]
  /\ argument 4 (surf_mapping_cmd s tmp "R") = os_path_join tmp ["R.func.gii"]
  /\ argument 3 (surf_mapping_cmd s tmp "L") = surf_file s "L" "midthickness"
  /\ argument 3 (surf_mapping_cmd s tmp "R") = surf_file s "R" "midthickness".
Proof.
  unfold surf_mapping_cmd. destruct (integer_labels s); repeat split.
Qed.

(** X5. Whenever the dense-CIFTI creation command is issued, the two
    surface-mapping commands were issued first, and the creation command
    takes as left and right metric the files those two commands wrote, as
    ROIs the two validated masks and as volume label the validated atlas. *)
Theorem dense_reads_mapping_outputs (w : World) (s : UserSettings)
    (tmp : string) (cmd : Cmd) :
  In cmd (issued (run_ciftify_vol_result w s tmp)) ->
  is_dense_create cmd ->
  exists cL cR rest,
    issued (run_ciftify_vol_result w s tmp) = cL :: cR :: rest
    /\ In cmd rest
    /\ subcommand cL = "-volume-to-surface-mapping"
    /\ subcommand cR = "-volume-to-surface-mapping"
    /\ length cmd = 14
    /\ argument 3 cmd = "-volume" /\ argument 5 cmd = atlas_vol s
    /\ argument 6 cmd = "-left-metric" /\ argument 7 cmd = argument 4 cL
    /\ argument 8 cmd = "-roi-left" /\ argument 9 cmd = surf_roi_L s
    /\ argument 10 cmd = "-right-metric" /\ argument 11 cmd = argument 4 cR
    /\ argument 12 cmd = "-roi-right" /\ argument 13 cmd = surf_roi_R s.
Proof.
  intros Hin Hd.
  assert (Hcmd : cmd = planned_dense s tmp).
  { pose proof Hin as H. apply In_issued in H.
    destruct H as [H|[H|[[_ H]|[H|[_ H]]]]]; subst; try reflexivity.
    - destruct (mapping_not_dense _ _ _ Hd).
    - destruct (mapping_not_dense _ _ _ Hd).
    - destruct Hd as [Hd|Hd]; discriminate.
    - destruct Hd as [Hd|Hd]; discriminate. }
  destruct (issued_shape w s tmp) as [E|[rest [E _]]]; rewrite E in Hin |- *.
  - destruct Hin as [H|[]]. subst cmd. clash.
  - exists (surf_mapping_cmd s tmp "L"), (surf_mapping_cmd s tmp "R"), rest.
    destruct (mapping_output s tmp) as [HL [HR _]].
    rewrite HL, HR, !subcommand_mapping.
    split; [reflexivity|]. split.
    + destruct Hin as [H|[H|H]]; [| |exact H]; subst cmd; clash.
    + subst cmd. repeat split.
Qed.

(** X6. A dilation command is issued only for a non-empty [--dilate]
    value, directly after the dense-CIFTI creation command and as the
    last command.  It reads the file the creation command wrote, passes
    the value twice and unchanged, writes the resolved output name and
    uses the midthickness surfaces of the two mapping commands. *)
Theorem dilation_step (w : World) (s : UserSettings) (tmp : string)
    (cmd : Cmd) :
  In cmd (issued (run_ciftify_vol_result w s tmp)) ->
  subcommand cmd = "-cifti-dilate" ->
  exists mm cL cR mid d,
    dilate_mm s = Some mm /\ mm <> ""
    /\ issued (run_ciftify_vol_result w s tmp)
       = (cL :: cR :: mid ++ [d; cmd])%list
    /\ subcommand cL = "-volume-to-surface-mapping"
    /\ subcommand cR = "-volume-to-surface-mapping"
    /\ is_dense_create d
    /\ argument 2 cmd = argument 2 d
    /\ argument 3 cmd = "COLUMN"
    /\ argument 4 cmd = mm /\ argument 5 cmd = mm
    /\ argument 6 cmd = outputname s
    /\ argument 8 cmd = argument 3 cL
    /\ argument 10 cmd = argument 3 cR.
Proof.
  intros Hin Hsub.
  assert (Hcmd : truthy_opt (dilate_mm s) = true
                 /\ cmd = planned_dilate s tmp).
  { pose proof Hin as H. apply In_issued in H.
    destruct H as [H|[H|[[_ H]|[H|[D H]]]]]; subst; auto;
      rewrite ?subcommand_mapping, ?subcommand_resample, ?subcommand_dense
        in Hsub; try discriminate.
    destruct (endswith (outputname s) "dtseries.nii"); discriminate. }
  destruct Hcmd as [D ->].
  destruct (truthy_opt_Some _ D) as [mm [Hmm Hne]].
  destruct (mapping_output s tmp) as [_ [_ [HL HR]]].
  exists mm, (surf_mapping_cmd s tmp "L"), (surf_mapping_cmd s tmp "R").
  destruct (issued_shape w s tmp) as [E|[rest [E Hrest]]]; rewrite E in Hin |- *.
  - destruct Hin as [H|[]]. clash.
  - assert (Hin' : In (planned_dilate s tmp) rest)
      by (destruct Hin as [H|[H|H]]; [clash | clash | exact H]).
    destruct Hrest as [->|Hrest]; [destruct Hin'|].
    rewrite D in Hrest.
    assert (Hmid : exists mid,
               rest = (mid ++ [planned_dense s tmp; planned_dilate s tmp])%list).
    { subst rest. destruct (resample s); cbn [app until_failure] in Hin' |- *.
      - destruct (succeeds w (planned_resample w s tmp)).
        + destruct (succeeds w (planned_dense s tmp)).
          * exists [planned_resample w s tmp].
            destruct (succeeds w (planned_dilate s tmp)); reflexivity.
          * destruct Hin' as [H|[H|[]]]; clash.
        + destruct Hin' as [H|[]]; clash.
      - destruct (succeeds w (planned_dense s tmp)).
        + exists [].
          destruct (succeeds w (planned_dilate s tmp)); reflexivity.
        + destruct Hin' as [H|[]]; clash. }
    destruct Hmid as [mid ->].
    exists mid, (planned_dense s tmp).
    rewrite HL, HR, !subcommand_mapping.
    split; [exact Hmm|]. split; [exact Hne|]. split; [reflexivity|].
    split; [reflexivity|]. split; [reflexivity|].
    split; [apply dense_is_dense_create|].
    unfold argument, planned_dilate, planned_dilate_args, planned_dense.
    cbn [app nth]. rewrite Hmm. repeat split.
Qed.

(** ** From the arguments to the commands *)

Section MainFacts.

Variable w : World.

Lemma In_issued_main (a : CliArgs) (cmd : Cmd) :
  In cmd (issued (main w a)) ->
  exists wd, WorkDirSettings_init w a = Ok wd
             /\ validation_failure w wd a = false
             /\ In cmd (issued (run_ciftify_vol_result w (resolved w wd a)
                                  (TempDir w))).
Proof.
  unfold issued at 1. rewrite main_eq.
  destruct (WorkDirSettings_init w a) as [wd|c] eqn:Hwd; [|intros []].
  destruct (validation_failure w wd a) eqn:V; [intros []|].
  cbv zeta. cbn [snd]. intros H. exists wd.
  rewrite issued_run_eq. auto.
Qed.

Lemma output_filename_of_suffix (p : string) :
  endswith (output_filename_of p) "dscalar.nii" = true
  \/ endswith (output_filename_of p) "dtseries.nii" = true.
Proof.
  unfold output_filename_of.
  destruct (endswith p "dscalar.nii") eqn:E1; cbn [negb]; [auto|].
  destruct (endswith p "dtseries.nii") eqn:E2; cbn [negb]; [auto|].
  left. apply endswith_trans with (mid := ".dscalar.nii");
    [apply endswith_app | reflexivity].
Qed.

(** The last component of a joined path keeps its suffixes. *)
Lemma endswith_join_last (a b suf : string) :
  endswith b suf = true -> endswith (os_path_join a [b]) suf = true.
Proof.
  intros H. unfold os_path_join. cbn [fold_left]. unfold join_step.
  destruct (startswith b "/"); [exact H|].
  destruct (negb (truthy a) || endswith a "/").
  - apply endswith_trans with (mid := b); [apply endswith_app | exact H].
  - rewrite <- app_assoc_str.
    apply endswith_trans with (mid := b); [apply endswith_app | exact H].
Qed.

End MainFacts.

(** X7. The file written by the dense-CIFTI creation command always
    carries the extension of the variant used: a name ending in
    [dtseries.nii] for the time-series call and one ending in
    [dscalar.nii] for the scalar call, both for the resolved output name
    and for the intermediate file of a run with dilation. *)
Theorem dense_file_extension (w : World) (a : CliArgs) (cmd : Cmd) :
  In cmd (issued (main w a)) ->
  is_dense_create cmd ->
  (subcommand cmd = "-cifti-create-dense-timeseries" ->
   endswith (argument 2 cmd) "dtseries.nii" = true)
  /\ (subcommand cmd = "-cifti-create-dense-scalar" ->
      endswith (argument 2 cmd) "dscalar.nii" = true).
Proof.
  intros Hin Hd.
  destruct (In_issued_main _ _ _ Hin) as [wd [_ [_ H]]].
  assert (Hcmd : cmd = planned_dense (resolved w wd a) (TempDir w)).
  { apply In_issued in H.
    destruct H as [H|[H|[[_ H]|[H|[_ H]]]]]; subst; try reflexivity.
    - destruct (mapping_not_dense _ _ _ Hd).
    - destruct (mapping_not_dense _ _ _ Hd).
    - destruct Hd as [Hd|Hd]; discriminate.
    - destruct Hd as [Hd|Hd]; discriminate. }
  subst cmd. rewrite subcommand_dense.
  unfold argument, planned_dense, planned_dense_out. cbn [nth].
  cbn [outputname dilate_mm resolved].
  pose proof (output_filename_of_suffix (output_real w a)) as Hs.
  destruct (endswith (output_filename_of (output_real w a)) "dtseries.nii")
    eqn:E;
    destruct (truthy_opt (arg_dilate a));
    (split; intros Hx; try discriminate Hx);
    try (apply endswith_join_last; reflexivity).
  - exact E.
  - destruct Hs as [Hs|Hs]; [exact Hs | discriminate Hs].
Qed.

(** X8. When the base class has returned a work directory and the
    process exits with code 0, the last command issued is the one that
    writes the resolved output name: the dilation command when
    [--dilate] is non-empty, the dense-CIFTI creation command otherwise. *)
Theorem final_command_writes_output (w : World) (a : CliArgs) (wd : string) :
  WorkDirSettings_init w a = Ok wd ->
  outcome (main w a) = Exit 0%Z ->
  exists pre final,
    issued (main w a) = (pre ++ [final])%list
    /\ if truthy_opt (arg_dilate a) then
         subcommand final = "-cifti-dilate"
         /\ argument 6 final = output_filename_of (realpath w (arg_output a))
       else
         is_dense_create final
         /\ argument 2 final = output_filename_of (realpath w (arg_output a)).
Proof.
  intros Hwd. unfold outcome, issued. rewrite main_eq, Hwd.
  destruct (validation_failure w wd a); [discriminate|].
  cbv zeta. cbn [fst snd].
  destruct (all_succeed w _) eqn:A; [|discriminate]. intros _.
  rewrite (until_failure_all _ _ A). unfold planned.
  cbn [resample dilate_mm resolved].
  set (s := resolved w wd a). set (tmp := TempDir w).
  set (r := if arg_resample_nifti a then [planned_resample w s tmp] else []).
  destruct (truthy_opt (arg_dilate a)) eqn:D.
  - exists ([surf_mapping_cmd s tmp "L"; surf_mapping_cmd s tmp "R"]
            ++ r ++ [planned_dense s tmp])%list, (planned_dilate s tmp).
    split; [rewrite <- !app_assoc; reflexivity|].
    split; reflexivity.
  - exists ([surf_mapping_cmd s tmp "L"; surf_mapping_cmd s tmp "R"]
            ++ r)%list, (planned_dense s tmp).
    split; [rewrite app_nil_r, <- !app_assoc; reflexivity|].
    split; [apply dense_is_dense_create|].
    unfold argument, planned_dense, planned_dense_out. cbn [nth].
    subst s. cbn [dilate_mm outputname resolved]. rewrite D. reflexivity.
Qed.

(** X9. An input volume that is a directory is rejected like a missing
    one: the process exits with code 1 and issues no command. *)
Theorem directory_input_is_fatal (w : World) (a : CliArgs) (wd : string) :
  WorkDirSettings_init w a = Ok wd ->
  fs_kind w (surface_input a) = Some Directory
  \/ fs_kind w (subcortical_input a) = Some Directory ->
  main w a [] = (Exit 1%Z, []).
Proof.
  intros Hwd H. rewrite main_eq, Hwd.
  assert (V : validation_failure w wd a = true); [|rewrite V; reflexivity].
  unfold validation_failure, missing_input, isfile.
  destruct H as [H|H]; rewrite H; cbn [negb orb]; rewrite ?orb_true_r;
    reflexivity.
Qed.

(** ** What an invocation does not depend on *)

Section Independence.

Lemma until_failure_ext (w w' : World) (cmds : list Cmd) :
  (forall c, tool_status w c = tool_status w' c) ->
  until_failure w cmds = until_failure w' cmds.
Proof.
  intros H. induction cmds as [|c cmds IH]; [reflexivity|].
  cbn [until_failure]. unfold succeeds. rewrite H, IH. reflexivity.
Qed.

Lemma all_succeed_ext (w w' : World) (cmds : list Cmd) :
  (forall c, tool_status w c = tool_status w' c) ->
  all_succeed w cmds = all_succeed w' cmds.
Proof.
  intros H. induction cmds as [|c cmds IH]; [reflexivity|].
  cbn [all_succeed forallb]. unfold succeeds at 1 3. rewrite H.
  f_equal. exact IH.
Qed.

(** Two invocations with the same tools, the same validation verdict and
    the same plan end alike. *)
Lemma main_congr (w w' : World) (a a' : CliArgs) (wd wd' : string) :
  WorkDirSettings_init w a = Ok wd ->
  WorkDirSettings_init w' a' = Ok wd' ->
  (forall c, tool_status w c = tool_status w' c) ->
  validation_failure w wd a = validation_failure w' wd' a' ->
  planned w (resolved w wd a) (TempDir w)
  = planned w' (resolved w' wd' a') (TempDir w') ->
  main w a [] = main w' a' [].
Proof.
  intros Hwd Hwd' Ht Hv Hp. rewrite !main_eq, Hwd, Hwd', Hv.
  destruct (validation_failure w' wd' a'); [reflexivity|].
  cbv zeta. rewrite Hp.
  rewrite (until_failure_ext w w' _ Ht), (all_succeed_ext w w' _ Ht).
  reflexivity.
Qed.

Lemma main_base_exit (w : World) (a : CliArgs) (c : Z) :
  WorkDirSettings_init w a = Exit c -> main w a [] = (Exit c, []).
Proof. intros H. rewrite main_eq, H. reflexivity. Qed.

(** The plan does not read the [work_dir] field. *)
Lemma planned_global (w : World) (a : CliArgs) (wd wd' tmp : string) :
  arg_subject a = "HCP_S1200_GroupAvg" ->
  planned w (resolved w wd a) tmp = planned w (resolved w wd' a) tmp.
Proof.
  intros E.
  destruct (global_paths w wd a E) as [Hd [Ha Hr]].
  destruct (global_paths w wd' a E) as [Hd' [Ha' Hr']].
  unfold planned, planned_dilate, planned_dilate_args, planned_dense,
    planned_dense_out, planned_rinput, planned_resample, surf_mapping_cmd,
    surf_file.
  cbn [resolved work_dir integer_labels resample dilate_mm outputname
       use_ciftify_global_flag subject surf_dir surf_mesh atlas_vol
       surf_roi_L surf_roi_R surface_nii subcortical_nii].
  rewrite Hd, Hd', Ha, Ha', !Hr, !Hr'. reflexivity.
Qed.

Lemma override_inputs (a : CliArgs) (v : string) :
  truthy_opt (arg_surface_vol a) = true ->
  truthy_opt (arg_subcortical_vol a) = true ->
  surface_input (with_vol a v) = surface_input a
  /\ subcortical_input (with_vol a v) = subcortical_input a.
Proof.
  unfold surface_input, subcortical_input, vol_or_default, truthy_opt.
  cbn [with_vol arg_surface_vol arg_subcortical_vol arg_vol].
  destruct (arg_surface_vol a) as [x|]; [|discriminate].
  destruct (arg_subcortical_vol a) as [y|]; [|discriminate].
  intros -> ->. auto.
Qed.

End Independence.

(** X10. When [--surface-vol] and [--subcortical-vol] are both given and
    non-empty, [<vol.nii.gz>] is not used: with any other value for it
    (and the same outcome of the base class) the process issues the same
    commands and exits with the same code. *)
Theorem vol_unused_when_overridden (w : World) (a : CliArgs) (v : string) :
  truthy_opt (arg_surface_vol a) = true ->
  truthy_opt (arg_subcortical_vol a) = true ->
  WorkDirSettings_init w (with_vol a v) = WorkDirSettings_init w a ->
  main w (with_vol a v) [] = main w a [].
Proof.
  intros Hs Hc Hb.
  destruct (override_inputs a v Hs Hc) as [Es Ec].
  destruct (WorkDirSettings_init w a) as [wd|c] eqn:Hwd.
  - apply main_congr with (wd := wd) (wd' := wd); auto.
    + unfold validation_failure, missing_input, spacing_mismatch.
      rewrite Es, Ec. reflexivity.
    + assert (R : resolved w wd (with_vol a v) = resolved w wd a)
        by (unfold resolved; rewrite Es, Ec; reflexivity).
      rewrite R. reflexivity.
  - rewrite (main_base_exit _ _ Hb), (main_base_exit _ _ Hwd). reflexivity.
Qed.

(** X11. With [--resample-nifti] the voxel spacings are never compared:
    whatever the NIfTI headers hold, the process issues the same commands
    and exits with the same code. *)
Theorem spacing_unused_when_resampling (w : World) (a : CliArgs)
    (S : Type) (vs : string -> S) (ne : S -> S -> bool) :
  arg_resample_nifti a = true ->
  main (with_spacing w vs ne) a [] = main w a [].
Proof.
  intros Hr.
  destruct (WorkDirSettings_init w a) as [wd|c] eqn:Hwd.
  - apply main_congr with (wd := wd) (wd' := wd); auto.
    unfold validation_failure, spacing_mismatch. rewrite Hr. reflexivity.
  - rewrite (main_base_exit (with_spacing w vs ne) a Hwd),
      (main_base_exit _ _ Hwd). reflexivity.
Qed.

(** X12. For the group-average subject the work directory is not used at
    all: whatever directory the base class returns, the process issues
    the same commands and exits with the same code. *)
Theorem work_dir_unused_for_group_average (w : World) (a : CliArgs)
    (wd wd' : string) :
  arg_subject a = "HCP_S1200_GroupAvg" ->
  WorkDirSettings_init w a = Ok wd ->
  main (with_work_dir w (fun _ => Ok wd')) a [] = main w a [].
Proof.
  intros E Hwd.
  apply main_congr with (wd := wd') (wd' := wd); auto.
  - change (validation_failure (with_work_dir w (fun _ => Ok wd')) wd' a)
      with (validation_failure w wd' a).
    apply global_validation. exact E.
  - change (planned w (resolved w wd' a) (TempDir w)
            = planned w (resolved w wd a) (TempDir w)).
    apply planned_global. exact E.
Qed.

(** X13. For the group-average subject [--HCP-MSMAll] changes nothing:
    with or without it (and the same outcome of the base class) the
    process issues the same commands and exits with the same code. *)
Theorem MSMAll_unused_for_group_average (w : World) (a : CliArgs)
    (b : bool) :
  arg_subject a = "HCP_S1200_GroupAvg" ->
  WorkDirSettings_init w (with_MSMAll a b) = WorkDirSettings_init w a ->
  main w (with_MSMAll a b) [] = main w a [].
Proof.
  intros E Hb.
  destruct (WorkDirSettings_init w a) as [wd|c] eqn:Hwd.
  - apply main_congr with (wd := wd) (wd' := wd); auto.
    assert (R : resolved w wd (with_MSMAll a b) = resolved w wd a).
    { unfold resolved, get_surface_mesh, use_ciftify_global.
      cbn [with_MSMAll arg_subject arg_HCP_MSMAll]. rewrite E. reflexivity. }
    rewrite R. reflexivity.
  - rewrite (main_base_exit _ _ Hb), (main_base_exit _ _ Hwd). reflexivity.
Qed.

(** X14. [--dry-run] and [--HCP-Pipelines] are never looked up and
    [--debug] only sets the logging level: two invocations that agree on
    the other keys and on the outcome of the base class issue the same
    commands (a dry run included) and exit with the same code. *)
Theorem unread_options (w : World) (a a' : CliArgs) :
  reads_same a a' ->
  WorkDirSettings_init w a = WorkDirSettings_init w a' ->
  main w a [] = main w a' [].
Proof.
  intros R Hb. rewrite !main_eq, Hb.
  destruct a, a'. unfold reads_same in R. cbn in R.
  destruct R as [? [? [? [? [? [? [? [? ?]]]]]]]]. subst.
  reflexivity.
Qed.

(** ** The test helper [palette_changed] *)

Section PaletteFacts.

Import TestUserSettings.

Lemma contains_In (x : string) (l : list string) :
  contains x l = true <-> In x l.
Proof.
  unfold contains. rewrite existsb_exists. split.
  - intros [y [Hin Heq]]. apply String.eqb_eq in Heq. subst. exact Hin.
  - intros Hin. exists x. split; [exact Hin | apply String.eqb_refl].
Qed.

(** The loop sets the flag at the first matching call and never clears
    it. *)
Lemma palette_loop (strict_check : bool) (l : list Cmd) (changed : bool) :
  fold_left
    (fun changed arg_list =>
       if contains "-palette-name" arg_list then
         if strict_check || contains palette arg_list then true
         else changed
       else changed) l changed
  = changed || existsb (palette_hit strict_check) l.
Proof.
  revert changed. induction l as [|c l IH]; intros changed.
  - simpl. rewrite orb_false_r. reflexivity.
  - cbn [fold_left existsb]. rewrite IH. unfold palette_hit at 2.
    destruct (contains "-palette-name" c); cbn [andb orb].
    + destruct (strict_check || contains palette c); cbn [orb].
      * rewrite orb_true_r. reflexivity.
      * reflexivity.
    + reflexivity.
Qed.

Lemma palette_changed_existsb (strict_check : bool) (l : list Cmd) :
  palette_changed l strict_check = existsb (palette_hit strict_check) l.
Proof. unfold palette_changed. rewrite palette_loop. reflexivity. Qed.

(** X15. [palette_changed] answers true exactly when some recorded call
    holds the argument [-palette-name] and, unless the check is strict,
    also the palette name of the test class. *)
Theorem palette_changed_iff (l : list Cmd) (strict_check : bool) :
  palette_changed l strict_check = true
  <-> exists call,
        In call l /\ In "-palette-name" call
        /\ (strict_check = true \/ In palette call).
Proof.
  rewrite palette_changed_existsb, existsb_exists. unfold palette_hit. split.
  - intros [call [Hin H]]. apply andb_prop in H as [H1 H2].
    exists call. split; [exact Hin|]. split; [apply contains_In; exact H1|].
    apply orb_prop in H2 as [H2|H2]; [left; exact H2|].
    right. apply contains_In. exact H2.
  - intros [call [Hin [H1 H2]]]. exists call. split; [exact Hin|].
    apply andb_true_intro. split; [apply contains_In; exact H1|].
    destruct H2 as [->|H2]; [reflexivity|].
    apply orb_true_intro. right. apply contains_In. exact H2.
Qed.

(** X16. The strict check catches everything the plain check catches,
    and calls recorded one after the other are judged separately: with
    no call the answer is false, and for two lists in sequence it is the
    disjunction of the two answers. *)
Theorem palette_changed_compose (l1 l2 : list Cmd) (strict_check : bool) :
  palette_changed [] strict_check = false
  /\ palette_changed (l1 ++ l2) strict_check
     = palette_changed l1 strict_check || palette_changed l2 strict_check
  /\ (palette_changed l1 false = true -> palette_changed l1 true = true).
Proof.
  split; [reflexivity|]. split.
  - rewrite !palette_changed_existsb. apply existsb_app.
  - rewrite !palette_changed_iff. intros [call [Hin [H _]]].
    exists call. auto.
Qed.

End PaletteFacts.

(** X17. For the group-average subject every surface-mapping command
    projects onto the midthickness surface
    [S1200.<hemi>.midthickness_MSMAll.32k_fs_LR.surf.gii] in the directory
    given by [find_HCP_S1200_GroupAvg], for the left or the right
    hemisphere. *)
Theorem group_average_surfaces (w : World) (a : CliArgs) (cmd : Cmd) :
  arg_subject a = "HCP_S1200_GroupAvg" ->
  In cmd (issued (main w a)) ->
  subcommand cmd = "-volume-to-surface-mapping" ->
  exists hemi,
    (hemi = "L" \/ hemi = "R")
    /\ argument 3 cmd =
       os_path_join (find_HCP_S1200_GroupAvg w)
         ["S1200." ++ hemi ++ ".midthickness_MSMAll.32k_fs_LR.surf.gii"]
    /\ argument 4 cmd = os_path_join (TempDir w) [hemi ++ ".func.gii"].
Proof.
  intros E Hin Hsub.
  destruct (In_issued_main _ _ _ Hin) as [wd [_ [_ H]]].
  destruct (global_paths w wd a E) as [Hd _].
  assert (Hfile : forall hemi,
             surf_file (resolved w wd a) hemi "midthickness"
             = os_path_join (find_HCP_S1200_GroupAvg w)
                 ["S1200." ++ hemi
                  ++ ".midthickness_MSMAll.32k_fs_LR.surf.gii"]).
  { intros hemi. unfold surf_file.
    cbn [surf_dir subject surf_mesh resolved]. rewrite Hd.
    unfold get_subject, get_surface_mesh, use_ciftify_global.
    rewrite E. reflexivity. }
  issued_cases H; try discriminate.
  - exists "L". split; [auto|]. rewrite <- Hfile.
    unfold surf_mapping_cmd.
    destruct (integer_labels (resolved w wd a)); split; reflexivity.
  - exists "R". split; [auto|]. rewrite <- Hfile.
    unfold surf_mapping_cmd.
    destruct (integer_labels (resolved w wd a)); split; reflexivity.
  - destruct (endswith (outputname (resolved w wd a)) "dtseries.nii");
      discriminate.
Qed.

(** ** Further concrete runs *)

Module MoreRuns.

Import Sample SampleMore TestUserSettings.

Lemma output_dir_is_the_tested_one_witness :
  get_output_filename w_sub01 "/out/res" [] = (Ok "/out/res.dscalar.nii", [])
  /\ os_path_dirname "/out/res.dscalar.nii"
     = os_path_dirname (realpath w_sub01 "/out/res")
  /\ access_W_OK w_sub01 (os_path_dirname "/out/res.dscalar.nii") = true.
Proof.
  split; [reflexivity|].
  exact (@output_dir_is_the_tested_one w_sub01 "/out/res"
           "/out/res.dscalar.nii" [] [] eq_refl).
Defined.

Lemma output_name_is_stable_witness :
  get_output_filename w_sub01 "/out/res" [] = (Ok "/out/res.dscalar.nii", [])
  /\ realpath w_sub01 "/out/res.dscalar.nii" = "/out/res.dscalar.nii"
  /\ get_output_filename w_sub01 "/out/res.dscalar.nii" []
     = (Ok "/out/res.dscalar.nii", []).
Proof.
  split; [reflexivity|]. split; [reflexivity|].
  exact (@output_name_is_stable w_sub01 "/out/res" "/out/res.dscalar.nii"
           [] [] eq_refl eq_refl).
Defined.

Lemma only_wb_command_witness :
  all_succeed w_sub01
    (issued (run_ciftify_vol_result w_sub01
               (resolved w_sub01 "/work" a_labels) "/tmp/tmp0")) = true
  /\ length (issued (run_ciftify_vol_result w_sub01
                       (resolved w_sub01 "/work" a_labels) "/tmp/tmp0")) = 5.
Proof.
  split; [reflexivity|].
  exact (proj2 (proj2 (only_wb_command w_sub01
                         (resolved w_sub01 "/work" a_labels) "/tmp/tmp0"))
           eq_refl).
Defined.

Lemma dense_reads_mapping_outputs_witness :
  exists cmd cL,
    In cmd (issued (run_ciftify_vol_result w_sub01
                      (resolved w_sub01 "/work" a_plain) "/tmp/tmp0"))
    /\ is_dense_create cmd
    /\ nth_error (issued (run_ciftify_vol_result w_sub01
                            (resolved w_sub01 "/work" a_plain) "/tmp/tmp0")) 0
       = Some cL
    /\ argument 7 cmd = argument 4 cL.
Proof.
  exists (planned_dense (resolved w_sub01 "/work" a_plain) "/tmp/tmp0").
  assert (Hin : In (planned_dense (resolved w_sub01 "/work" a_plain)
                      "/tmp/tmp0")
                   (issued (run_ciftify_vol_result w_sub01
                              (resolved w_sub01 "/work" a_plain) "/tmp/tmp0")))
    by (vm_compute; auto).
  assert (Hd : is_dense_create
                 (planned_dense (resolved w_sub01 "/work" a_plain)
                    "/tmp/tmp0"))
    by (right; reflexivity).
  destruct (@dense_reads_mapping_outputs w_sub01 _ _ _ Hin Hd)
    as [cL [cR [rest [E [_ [_ [_ [_ [_ [_ [_ [H7 _]]]]]]]]]]]].
  exists cL. split; [exact Hin|]. split; [exact Hd|].
  split; [rewrite E; reflexivity | exact H7].
Defined.

Lemma dilation_step_witness :
  exists cmd mm,
    In cmd (issued (run_ciftify_vol_result w_sub01
                      (resolved w_sub01 "/work" a_dilate) "/tmp/tmp0"))
    /\ subcommand cmd = "-cifti-dilate"
    /\ dilate_mm (resolved w_sub01 "/work" a_dilate) = Some mm
    /\ argument 4 cmd = mm.
Proof.
  exists (planned_dilate (resolved w_sub01 "/work" a_dilate) "/tmp/tmp0").
  assert (Hin : In (planned_dilate (resolved w_sub01 "/work" a_dilate)
                      "/tmp/tmp0")
                   (issued (run_ciftify_vol_result w_sub01
                              (resolved w_sub01 "/work" a_dilate)
                              "/tmp/tmp0")))
    by (vm_compute; auto 6).
  destruct (@dilation_step w_sub01 _ _ _ Hin eq_refl)
    as [mm [cL [cR [mid [d [Hmm [_ [_ [_ [_ [_ [_ [_ [H4 _]]]]]]]]]]]]]].
  exists mm. auto.
Defined.

Lemma dense_file_extension_witness :
  In (planned_dense (resolved w_sub01 "/work" a_plain) "/tmp/tmp0")
     (issued (main w_sub01 a_plain))
  /\ endswith (argument 2 (planned_dense (resolved w_sub01 "/work" a_plain)
                             "/tmp/tmp0")) "dscalar.nii" = true.
Proof.
  assert (Hin : In (planned_dense (resolved w_sub01 "/work" a_plain)
                      "/tmp/tmp0")
                   (issued (main w_sub01 a_plain)))
    by (vm_compute; auto).
  split; [exact Hin|].
  exact (proj2 (@dense_file_extension w_sub01 _ _ Hin (or_intror eq_refl))
           eq_refl).
Defined.

Lemma final_command_writes_output_witness :
  WorkDirSettings_init w_sub01 a_dilate = Ok "/work"
  /\ outcome (main w_sub01 a_dilate) = Exit 0%Z
  /\ exists pre final,
       issued (main w_sub01 a_dilate) = (pre ++ [final])%list
       /\ subcommand final = "-cifti-dilate"
       /\ argument 6 final = "/out/res.dscalar.nii".
Proof.
  split; [reflexivity|]. split; [reflexivity|].
  destruct (@final_command_writes_output w_sub01 a_dilate "/work"
              eq_refl eq_refl) as [pre [final [E H]]].
  exists pre, final. split; [exact E | exact H].
Defined.

Lemma directory_input_is_fatal_witness :
  WorkDirSettings_init w_dir_input a_plain = Ok "/work"
  /\ fs_kind w_dir_input (surface_input a_plain) = Some Directory
  /\ main w_dir_input a_plain [] = (Exit 1%Z, []).
Proof.
  split; [reflexivity|]. split; [reflexivity|].
  exact (@directory_input_is_fatal w_dir_input a_plain "/work" eq_refl
           (or_introl eq_refl)).
Defined.

Lemma vol_unused_when_overridden_witness :
  truthy_opt (arg_surface_vol a_split) = true
  /\ truthy_opt (arg_subcortical_vol a_split) = true
  /\ main w_split (with_vol a_split "/data/absent.nii.gz") []
     = main w_split a_split [].
Proof.
  split; [reflexivity|]. split; [reflexivity|].
  exact (@vol_unused_when_overridden w_split a_split "/data/absent.nii.gz"
           eq_refl eq_refl eq_refl).
Defined.

Lemma spacing_unused_when_resampling_witness :
  arg_resample_nifti a_resample = true
  /\ main (with_spacing w_mismatch (fun _ => tt) (fun _ _ => true))
          a_resample []
     = main w_mismatch a_resample [].
Proof.
  split; [reflexivity|].
  exact (@spacing_unused_when_resampling w_mismatch a_resample unit
           (fun _ => tt) (fun _ _ => true) eq_refl).
Defined.

Lemma work_dir_unused_for_group_average_witness :
  arg_subject a_avg = "HCP_S1200_GroupAvg"
  /\ WorkDirSettings_init w_global a_avg = Ok "/work"
  /\ main (with_work_dir w_global (fun _ => Ok "/elsewhere")) a_avg []
     = main w_global a_avg [].
Proof.
  split; [reflexivity|]. split; [reflexivity|].
  exact (@work_dir_unused_for_group_average w_global a_avg "/work"
           "/elsewhere" eq_refl eq_refl).
Defined.

Lemma MSMAll_unused_for_group_average_witness :
  arg_subject a_avg = "HCP_S1200_GroupAvg"
  /\ main w_global (with_MSMAll a_avg true) [] = main w_global a_avg [].
Proof.
  split; [reflexivity|].
  exact (@MSMAll_unused_for_group_average w_global a_avg true
           eq_refl eq_refl).
Defined.

Lemma unread_options_witness :
  reads_same a_plain a_dry
  /\ arg_dry_run a_dry = true
  /\ main w_sub01 a_plain [] = main w_sub01 a_dry [].
Proof.
  assert (R : reads_same a_plain a_dry) by (repeat split).
  split; [exact R|]. split; [reflexivity|].
  exact (@unread_options w_sub01 a_plain a_dry R eq_refl).
Defined.

Lemma palette_changed_iff_witness :
  palette_changed calls_palette false = true.
Proof.
  apply (proj2 (palette_changed_iff calls_palette false)).
  exists ["wb_command"; "-cifti-palette"; "x.dscalar.nii"; "MODE_AUTO_SCALE";
          "x.dscalar.nii"; "-palette-name"; "PALETTE-NAME"].
  split; [right; left; reflexivity|].
  split; [|right]; cbn [In palette]; auto 10.
Defined.

Lemma palette_changed_compose_witness :
  palette_changed calls_palette false = true
  /\ palette_changed calls_palette true = true.
Proof.
  split; [reflexivity|].
  exact (proj2 (proj2 (palette_changed_compose calls_palette [] false))
           eq_refl).
Defined.

Lemma group_average_surfaces_witness :
  arg_subject a_avg = "HCP_S1200_GroupAvg"
  /\ exists cmd hemi,
       nth_error (issued (main w_global a_avg)) 1 = Some cmd
       /\ subcommand cmd = "-volume-to-surface-mapping"
       /\ (hemi = "L" \/ hemi = "R")
       /\ argument 3 cmd =
          os_path_join "/opt/ciftify/data/HCP_S1200_GroupAvg_v1"
            ["S1200." ++ hemi ++ ".midthickness_MSMAll.32k_fs_LR.surf.gii"].
Proof.
  split; [reflexivity|].
  exists (surf_mapping_cmd (resolved w_global "/work" a_avg) "/tmp/tmp0" "R").
  assert (Hin : In (surf_mapping_cmd (resolved w_global "/work" a_avg)
                      "/tmp/tmp0" "R")
                   (issued (main w_global a_avg)))
    by (vm_compute; auto).
  destruct (@group_average_surfaces w_global a_avg _ eq_refl Hin eq_refl)
    as [hemi [Hh [H3 _]]].
  exists hemi. split; [reflexivity|]. split; [reflexivity|].
  split; [exact Hh | exact H3].
Defined.

End MoreRuns.
